(** * FmpPayloadHeaderLibV1: header accessors and dependency evaluation

    A shallow embedding of
    [FmpDevicePkg/Library/FmpPayloadHeaderLibV1/FmpPayloadHeaderLib.c]
    and the properties of it that the specification states.

    Conventions.
    - Integers are [Z].  [UINTN]/[INTN] are the native word of a 64-bit
      build (X64, AARCH64); wrap-around is written out with [mod].
    - A buffer is the list of bytes the caller really owns.  The C code
      reads through a raw pointer; here a read outside the list is the
      outcome [Undefined OutOfBoundsRead], a write through a null output
      pointer is [Undefined NullPointerWrite].
    - [DEBUG] output has no effect on results and is not modelled. *)

From Stdlib Require Import ZArith List Bool Lia Permutation.
From coqutil Require Import Byte Word.LittleEndianList.
Import ListNotations.
Local Open Scope Z_scope.

(** ** Base types and macros *)

Module Base.

(** Modelled from the spec: the UEFI base definitions ([UINTN], [INTN],
    [EFI_STATUS], [EFI_ERROR], [SIGNATURE_32]) come from headers that are
    not part of the sources here; they follow the UEFI conventions the
    spec relies on (little-endian, status codes with the top bit set for
    errors, the ASCII tag "MSS1"). *)
Definition UINTN_BITS : Z := 64.

Definition UINTN_wrap (z : Z) : Z := z mod 2 ^ UINTN_BITS.

(** Conversion of a native word to [INTN] (two's complement). *)
Definition to_INTN (z : Z) : Z :=
  let u := UINTN_wrap z in
  if u <? 2 ^ (UINTN_BITS - 1) then u else u - 2 ^ UINTN_BITS.

Definition UINTN_add (a b : Z) : Z := UINTN_wrap (a + b).
Definition UINTN_sub (a b : Z) : Z := UINTN_wrap (a - b).
(** Unsigned division and remainder; the C operators act on the operands
    converted to [UINTN]. *)
Definition UINTN_div (a b : Z) : Z := UINTN_wrap a / UINTN_wrap b.
Definition UINTN_mod (a b : Z) : Z := UINTN_wrap a mod UINTN_wrap b.

Definition EFI_STATUS := Z.

Definition MAX_BIT : Z := 2 ^ (UINTN_BITS - 1).
Definition ENCODE_ERROR (StatusCode : Z) : EFI_STATUS := Z.lor MAX_BIT StatusCode.
Definition EFI_SUCCESS : EFI_STATUS := 0.
Definition EFI_INVALID_PARAMETER : EFI_STATUS := ENCODE_ERROR 2.
Definition EFI_NOT_FOUND : EFI_STATUS := ENCODE_ERROR 14.

(** [EFI_ERROR (Status)] is [((INTN) Status) < 0]. *)
Definition EFI_ERROR (Status : EFI_STATUS) : bool := to_INTN Status <? 0.

Definition SIGNATURE_16 (A B : Z) : Z := Z.lor A (Z.shiftl B 8).
Definition SIGNATURE_32 (A B C D : Z) : Z :=
  Z.lor (SIGNATURE_16 A B) (Z.shiftl (SIGNATURE_16 C D) 16).

End Base.
Export Base.

(** ** Memory: pointers into caller-owned bytes *)

Module Mem.

Inductive Fault : Type :=
| OutOfBoundsRead
| NullPointerRead
| NullPointerWrite.

Inductive Outcome (A : Type) : Type :=
| Returns (a : A)
| Undefined (f : Fault).
Arguments Returns {A} a.
Arguments Undefined {A} f.

(** A [CONST VOID *]: its numeric address ([0] is [NULL]) and the bytes of
    the object it points into, starting at that address. *)
Record Pointer : Type := mkPointer {
  address : Z;
  pointee : list byte
}.

Definition is_NULL (p : Pointer) : bool := address p =? 0.

(** An output pointer: [None] is [NULL], [Some v] points to a slot that
    currently holds [v]. *)
Definition OutSlot (A : Type) : Type := option A.

Definition slot_is_NULL {A : Type} (s : OutSlot A) : bool :=
  match s with None => true | Some _ => false end.

Definition read_bytes (data : list byte) (off : Z) (n : nat) : option (list byte) :=
  if (0 <=? off) && (off + Z.of_nat n <=? Z.of_nat (length data))
  then Some (firstn n (skipn (Z.to_nat off) data))
  else None.

(** Little-endian load of [n] bytes at byte offset [off] from [p]. *)
Definition load (p : Pointer) (off : Z) (n : nat) : Outcome Z :=
  match read_bytes (pointee p) off n with
  | Some bs => Returns (le_combine bs)
  | None => Undefined OutOfBoundsRead
  end.

Definition load_bytes (p : Pointer) (off : Z) (n : nat) : Outcome (list byte) :=
  match read_bytes (pointee p) off n with
  | Some bs => Returns bs
  | None => Undefined OutOfBoundsRead
  end.

Definition obind {A B : Type} (m : Outcome A) (k : A -> Outcome B) : Outcome B :=
  match m with
  | Returns a => k a
  | Undefined f => Undefined f
  end.

End Mem.
Export Mem.

Notation "'let*' x ':=' m 'in' k" := (obind m (fun x => k))
  (at level 10, x name, m at level 100, k at level 200).

(** ** The library *)

Module FmpPayloadHeaderLib.

(** Packed layout of [FMP_PAYLOAD_HEADER] ([#pragma pack(1)]). *)
Definition offsetof_Signature : Z := 0.
Definition offsetof_HeaderSize : Z := 4.
Definition offsetof_FwVersion : Z := 8.
Definition offsetof_LowestSupportedVersion : Z := 12.
Definition sizeof_FMP_PAYLOAD_HEADER : Z := 16.

(** Packed layout of [FW_DEPENDENCY]. *)
Definition offsetof_FmpInstance : Z := 0.
Definition offsetof_RequiredVersionInSystem : Z := 16.
Definition offsetof_ImageIndex : Z := 20.
Definition offsetof_Reserved : Z := 21.
Definition offsetof_Flags : Z := 22.
Definition sizeof_FW_DEPENDENCY : Z := 24.

Definition FW_DEPENDENCY_FLAG_REQUIRED : Z := 1.
Definition FW_DEPENDENCY_FLAG_MATCH_EXACT_VERSION : Z := 2.

(** ['M' = 0x4D, 'S' = 0x53, '1' = 0x31]. *)
Definition FMP_PAYLOAD_HEADER_SIGNATURE : Z := SIGNATURE_32 77 83 83 49.

(** *** Header accessors *)

Definition GetFmpPayloadHeaderSize
  (Header : Pointer) (FmpPayloadSize : Z) (Size : OutSlot Z)
  : Outcome (EFI_STATUS * OutSlot Z) :=
  if is_NULL Header || slot_is_NULL Size then
    Returns (EFI_INVALID_PARAMETER, Size)
  else
    let FmpPayloadHeader := address Header in
    if (UINTN_add FmpPayloadHeader sizeof_FMP_PAYLOAD_HEADER <? FmpPayloadHeader)
       || (UINTN_add FmpPayloadHeader sizeof_FMP_PAYLOAD_HEADER
             >=? UINTN_add FmpPayloadHeader FmpPayloadSize)
    then Returns (EFI_INVALID_PARAMETER, Size)
    else
      let* HeaderSize := load Header offsetof_HeaderSize 4 in
      if HeaderSize <? sizeof_FMP_PAYLOAD_HEADER then
        Returns (EFI_INVALID_PARAMETER, Size)
      else
        let* Signature := load Header offsetof_Signature 4 in
        if negb (Signature =? FMP_PAYLOAD_HEADER_SIGNATURE) then
          Returns (EFI_INVALID_PARAMETER, Size)
        else
          Returns (EFI_SUCCESS, Some HeaderSize).

Definition GetFmpPayloadHeaderVersion
  (Header : Pointer) (FmpPayloadSize : Z) (Version : OutSlot Z)
  : Outcome (EFI_STATUS * OutSlot Z) :=
  if is_NULL Header || slot_is_NULL Version then
    Returns (EFI_INVALID_PARAMETER, Version)
  else
    let FmpPayloadHeader := address Header in
    if (UINTN_add FmpPayloadHeader sizeof_FMP_PAYLOAD_HEADER <? FmpPayloadHeader)
       || (UINTN_add FmpPayloadHeader sizeof_FMP_PAYLOAD_HEADER
             >=? UINTN_add FmpPayloadHeader FmpPayloadSize)
    then Returns (EFI_INVALID_PARAMETER, Version)
    else
      let* HeaderSize := load Header offsetof_HeaderSize 4 in
      if HeaderSize <? sizeof_FMP_PAYLOAD_HEADER then
        Returns (EFI_INVALID_PARAMETER, Version)
      else
        let* Signature := load Header offsetof_Signature 4 in
        if negb (Signature =? FMP_PAYLOAD_HEADER_SIGNATURE) then
          Returns (EFI_INVALID_PARAMETER, Version)
        else
          let* FwVersion := load Header offsetof_FwVersion 4 in
          Returns (EFI_SUCCESS, Some FwVersion).

Definition GetFmpPayloadHeaderLowestSupportedVersion
  (Header : Pointer) (FmpPayloadSize : Z) (LowestSupportedVersion : OutSlot Z)
  : Outcome (EFI_STATUS * OutSlot Z) :=
  if is_NULL Header || slot_is_NULL LowestSupportedVersion then
    Returns (EFI_INVALID_PARAMETER, LowestSupportedVersion)
  else
    let FmpPayloadHeader := address Header in
    if (UINTN_add FmpPayloadHeader sizeof_FMP_PAYLOAD_HEADER <? FmpPayloadHeader)
       || (UINTN_add FmpPayloadHeader sizeof_FMP_PAYLOAD_HEADER
             >=? UINTN_add FmpPayloadHeader FmpPayloadSize)
    then Returns (EFI_INVALID_PARAMETER, LowestSupportedVersion)
    else
      let* HeaderSize := load Header offsetof_HeaderSize 4 in
      if HeaderSize <? sizeof_FMP_PAYLOAD_HEADER then
        Returns (EFI_INVALID_PARAMETER, LowestSupportedVersion)
      else
        let* Signature := load Header offsetof_Signature 4 in
        if negb (Signature =? FMP_PAYLOAD_HEADER_SIGNATURE) then
          Returns (EFI_INVALID_PARAMETER, LowestSupportedVersion)
        else
          let* Lsv := load Header offsetof_LowestSupportedVersion 4 in
          Returns (EFI_SUCCESS, Some Lsv).

(** *** The Component Resolver and the evaluator's events *)

Definition EFI_GUID : Type := list byte.

(** Modelled from the spec: [EFI_FIRMWARE_IMAGE_DESCRIPTOR] is declared
    in the UEFI headers; the evaluator reads its [Version] field only. *)
Record EFI_FIRMWARE_IMAGE_DESCRIPTOR : Type := mkDescriptor {
  Version : Z
}.

(** Modelled from the spec: [GetFmpAndDescriptor] (FmpHelperLib) is the
    Component Resolver, [resolveComponent (componentId, componentIndex)].
    It either finds the component and hands back a freshly allocated
    descriptor through its output pointer, or fails with an error status;
    on failure it may leave the caller's descriptor pointer as it was or
    reset it to [NULL]. *)
Inductive Resolution : Type :=
| Found (Descriptor : EFI_FIRMWARE_IMAGE_DESCRIPTOR)
| NotFound (StatusCode : Z) (ClearsDescriptor : bool).

Definition Resolver : Type := EFI_GUID -> Z -> Resolution.

Inductive Event : Type :=
| CallGetFmpAndDescriptor (FmpInstance : EFI_GUID) (ImageIndex : Z)
| CallFreePool (Descriptor : EFI_FIRMWARE_IMAGE_DESCRIPTOR).

(** The locals of [VerifyFmpPayloadDependencies] that outlive a loop
    iteration, the [*Verified] slot and the calls made so far. *)
Record Frame : Type := mkFrame {
  Verified : OutSlot bool;
  FmpDesc : option EFI_FIRMWARE_IMAGE_DESCRIPTOR;
  Status : EFI_STATUS;
  trace : list Event
}.

Definition Exec (A : Type) : Type := Frame -> Outcome (A * Frame).

Definition ret {A : Type} (a : A) : Exec A := fun fr => Returns (a, fr).

Definition bind {A B : Type} (m : Exec A) (k : A -> Exec B) : Exec B :=
  fun fr =>
    match m fr with
    | Returns (a, fr') => k a fr'
    | Undefined f => Undefined f
    end.

Definition lift {A : Type} (m : Outcome A) : Exec A :=
  fun fr =>
    match m with
    | Returns a => Returns (a, fr)
    | Undefined f => Undefined f
    end.

Notation "x <- m ;; k" := (bind m (fun x => k))
  (at level 61, m at next level, right associativity).
Notation "m ;;; k" := (bind m (fun _ => k))
  (at level 61, right associativity).

(** [*Verified = v] *)
Definition store_Verified (v : bool) : Exec unit :=
  fun fr =>
    match Verified fr with
    | None => Undefined NullPointerWrite
    | Some _ => Returns (tt, mkFrame (Some v) (FmpDesc fr) (Status fr) (trace fr))
    end.

(** [Status = s] *)
Definition set_Status (s : EFI_STATUS) : Exec unit :=
  fun fr => Returns (tt, mkFrame (Verified fr) (FmpDesc fr) s (trace fr)).

Definition get_Status : Exec EFI_STATUS := fun fr => Returns (Status fr, fr).

Definition get_FmpDesc : Exec (option EFI_FIRMWARE_IMAGE_DESCRIPTOR) :=
  fun fr => Returns (FmpDesc fr, fr).

(** [FmpDesc->Version] *)
Definition FmpDesc_Version : Exec Z :=
  fun fr =>
    match FmpDesc fr with
    | None => Undefined NullPointerRead
    | Some d => Returns (Version d, fr)
    end.

Definition log (e : Event) : Exec unit :=
  fun fr => Returns (tt, mkFrame (Verified fr) (FmpDesc fr) (Status fr) (trace fr ++ [e])).

(** Where control goes after the dependency block: on to [*Verified = TRUE],
    or straight to the [EXIT] label. *)
Inductive Flow : Type := FallThrough | GotoEXIT.

Section Evaluator.

Variable GetFmpAndDescriptor : Resolver.

(** [Status = GetFmpAndDescriptor (&Dep->FmpInstance, Dep->ImageIndex, NULL, &FmpDesc, NULL)] *)
Definition call_GetFmpAndDescriptor (FmpInstance : EFI_GUID) (ImageIndex : Z) : Exec unit :=
  fun fr =>
    let t := trace fr ++ [CallGetFmpAndDescriptor FmpInstance ImageIndex] in
    match GetFmpAndDescriptor FmpInstance ImageIndex with
    | Found d => Returns (tt, mkFrame (Verified fr) (Some d) EFI_SUCCESS t)
    | NotFound code clears =>
        Returns (tt, mkFrame (Verified fr)
                             (if clears then None else FmpDesc fr)
                             (ENCODE_ERROR code) t)
    end.

Variable Header : Pointer.

(** The [while (NumberOfDeps > 0)] loop; [Dep] is the byte offset of the
    current entry from [Header]. *)
Fixpoint walk (NumberOfDeps : nat) (Dep : Z) : Exec Flow :=
  match NumberOfDeps with
  | O => ret FallThrough
  | S NumberOfDeps' =>
      ImageIndex <- lift (load Header (Dep + offsetof_ImageIndex) 1) ;;
      FmpInstance <- lift (load_bytes Header (Dep + offsetof_FmpInstance) 16) ;;
      call_GetFmpAndDescriptor FmpInstance ImageIndex ;;;
      St <- get_Status ;;
      if EFI_ERROR St then
        Flags <- lift (load Header (Dep + offsetof_Flags) 2) ;;
        if Z.land Flags FW_DEPENDENCY_FLAG_REQUIRED =? FW_DEPENDENCY_FLAG_REQUIRED then
          store_Verified false ;;;
          set_Status EFI_SUCCESS ;;;
          ret GotoEXIT
        else
          walk NumberOfDeps' (Dep + sizeof_FW_DEPENDENCY)
      else
        RequiredVersionInSystem <-
          lift (load Header (Dep + offsetof_RequiredVersionInSystem) 4) ;;
        SysVersion <- FmpDesc_Version ;;
        if RequiredVersionInSystem >? SysVersion then
          store_Verified false ;;;
          set_Status EFI_SUCCESS ;;;
          ret GotoEXIT
        else
          Flags <- lift (load Header (Dep + offsetof_Flags) 2) ;;
          if (Z.land Flags FW_DEPENDENCY_FLAG_MATCH_EXACT_VERSION
                =? FW_DEPENDENCY_FLAG_MATCH_EXACT_VERSION)
             && negb (RequiredVersionInSystem =? SysVersion) then
            store_Verified false ;;;
            set_Status EFI_SUCCESS ;;;
            ret GotoEXIT
          else
            set_Status EFI_SUCCESS ;;;
            walk NumberOfDeps' (Dep + sizeof_FW_DEPENDENCY)
  end.

(** [DependencyBytes = (INTN)FmpPayloadHeader->HeaderSize - sizeof (FMP_PAYLOAD_HEADER)]:
    the subtraction is done on [UINTN] and the result stored in an [INTN]. *)
Definition DependencyBytes_of (HeaderSize : Z) : Z :=
  to_INTN (UINTN_sub (to_INTN HeaderSize) sizeof_FMP_PAYLOAD_HEADER).

(** The [EXIT:] label. *)
Definition EXIT : Exec EFI_STATUS :=
  d <- get_FmpDesc ;;
  match d with
  | Some desc => log (CallFreePool desc)
  | None => ret tt
  end ;;;
  get_Status.

(** The body after [Header] was found non-null.  The source tests
    [FmpPayloadHeader->Identifier]; the structure names that field
    [Signature], at offset 0. *)
Definition evaluate : Exec EFI_STATUS :=
  Signature <- lift (load Header offsetof_Signature 4) ;;
  if negb (Signature =? FMP_PAYLOAD_HEADER_SIGNATURE) then
    ret EFI_INVALID_PARAMETER
  else
    HeaderSize <- lift (load Header offsetof_HeaderSize 4) ;;
    let DependencyBytes := DependencyBytes_of HeaderSize in
    flow <-
      (if DependencyBytes >? 0 then
         let NumberOfDeps := to_INTN (UINTN_div DependencyBytes sizeof_FW_DEPENDENCY) in
         if negb (UINTN_mod DependencyBytes sizeof_FW_DEPENDENCY =? 0) then
           store_Verified false ;;;
           set_Status EFI_INVALID_PARAMETER ;;;
           ret GotoEXIT
         else
           walk (Z.to_nat NumberOfDeps) sizeof_FMP_PAYLOAD_HEADER
       else
         ret FallThrough) ;;
    match flow with
    | FallThrough => store_Verified true
    | GotoEXIT => ret tt
    end ;;;
    EXIT.

(** What a call leaves behind: the returned status, the [*Verified] slot
    and the calls to the resolver and to [FreePool], in order. *)
Record Result : Type := mkResult {
  ReturnStatus : EFI_STATUS;
  VerifiedOut : OutSlot bool;
  Calls : list Event
}.

Definition VerifyFmpPayloadDependencies (VerifiedPtr : OutSlot bool) : Outcome Result :=
  if is_NULL Header then
    Returns (mkResult EFI_INVALID_PARAMETER VerifiedPtr [])
  else
    match evaluate (mkFrame VerifiedPtr None EFI_SUCCESS []) with
    | Returns (st, fr) => Returns (mkResult st (Verified fr) (trace fr))
    | Undefined f => Undefined f
    end.

End Evaluator.

(** *** Views of a payload used to state properties *)

(** One dependency entry as laid out in the payload. *)
Record FW_DEPENDENCY : Type := mkFW_DEPENDENCY {
  FmpInstance : EFI_GUID;
  RequiredVersionInSystem : Z;
  ImageIndex : Z;
  Reserved : Z;
  Flags : Z
}.

Definition decode_FW_DEPENDENCY (bs : list byte) : FW_DEPENDENCY :=
  {| FmpInstance := firstn 16 (skipn 0 bs);
     RequiredVersionInSystem := le_combine (firstn 4 (skipn 16 bs));
     ImageIndex := le_combine (firstn 1 (skipn 20 bs));
     Reserved := le_combine (firstn 1 (skipn 21 bs));
     Flags := le_combine (firstn 2 (skipn 22 bs)) |}.

Definition encode_FW_DEPENDENCY (e : FW_DEPENDENCY) : list byte :=
  firstn 16 (FmpInstance e ++ repeat Byte.x00 16)
  ++ le_split 4 (RequiredVersionInSystem e)
  ++ le_split 1 (ImageIndex e)
  ++ le_split 1 (Reserved e)
  ++ le_split 2 (Flags e).

(** The fixed header with the valid signature. *)
Definition encode_FMP_PAYLOAD_HEADER (HeaderSize FwVersion LowestSupportedVersion : Z)
  : list byte :=
  le_split 4 FMP_PAYLOAD_HEADER_SIGNATURE
  ++ le_split 4 HeaderSize
  ++ le_split 4 FwVersion
  ++ le_split 4 LowestSupportedVersion.

(** The entry stored at byte offset [off], when it lies inside the buffer. *)
Definition Dep_at (Header : Pointer) (off : Z) : option FW_DEPENDENCY :=
  option_map decode_FW_DEPENDENCY (read_bytes (pointee Header) off 24).

Fixpoint Deps_at (Header : Pointer) (off : Z) (n : nat) : option (list FW_DEPENDENCY) :=
  match n with
  | O => Some []
  | S n' =>
      match Dep_at Header off, Deps_at Header (off + sizeof_FW_DEPENDENCY) n' with
      | Some e, Some es => Some (e :: es)
      | _, _ => None
      end
  end.

(** A structurally well-formed payload carrying the entries [deps]: the
    pointer is not null, the signature matches, [HeaderSize] covers the
    fixed header and exactly the entries, and every entry lies inside the
    caller's buffer. *)
Definition well_formed (Header : Pointer) (deps : list FW_DEPENDENCY) : Prop :=
  is_NULL Header = false /\
  load Header offsetof_Signature 4 = Returns FMP_PAYLOAD_HEADER_SIGNATURE /\
  load Header offsetof_HeaderSize 4
    = Returns (sizeof_FMP_PAYLOAD_HEADER
               + sizeof_FW_DEPENDENCY * Z.of_nat (length deps)) /\
  Deps_at Header sizeof_FMP_PAYLOAD_HEADER (length deps) = Some deps.

(** The field values that fit the layout. *)
Definition FW_DEPENDENCY_fits (e : FW_DEPENDENCY) : Prop :=
  length (FmpInstance e) = 16%nat
  /\ 0 <= RequiredVersionInSystem e < 2 ^ 32
  /\ 0 <= ImageIndex e < 2 ^ 8
  /\ 0 <= Reserved e < 2 ^ 8
  /\ 0 <= Flags e < 2 ^ 16.

Definition has_REQUIRED (e : FW_DEPENDENCY) : bool :=
  Z.land (Flags e) FW_DEPENDENCY_FLAG_REQUIRED =? FW_DEPENDENCY_FLAG_REQUIRED.

Definition has_MATCH_EXACT_VERSION (e : FW_DEPENDENCY) : bool :=
  Z.land (Flags e) FW_DEPENDENCY_FLAG_MATCH_EXACT_VERSION
    =? FW_DEPENDENCY_FLAG_MATCH_EXACT_VERSION.

Definition resolve (R : Resolver) (e : FW_DEPENDENCY) : Resolution :=
  R (FmpInstance e) (ImageIndex e).

Definition call_of (e : FW_DEPENDENCY) : Event :=
  CallGetFmpAndDescriptor (FmpInstance e) (ImageIndex e).

(** The three ways an entry fails, in the words of the specification:
    required and absent, installed version below the threshold, or an
    exact match demanded and not met. *)
Definition dep_fails (R : Resolver) (e : FW_DEPENDENCY) : bool :=
  match resolve R e with
  | NotFound _ _ => has_REQUIRED e
  | Found d =>
      (RequiredVersionInSystem e >? Version d)
      || (has_MATCH_EXACT_VERSION e && negb (RequiredVersionInSystem e =? Version d))
  end.

(** An entry is vacuously satisfied when the resolver fails for it and
    [REQUIRED] is not set. *)
Definition dep_vacuous (R : Resolver) (e : FW_DEPENDENCY) : bool :=
  match resolve R e with
  | NotFound _ _ => negb (has_REQUIRED e)
  | Found _ => false
  end.

Definition is_resolve_call (ev : Event) : bool :=
  match ev with CallGetFmpAndDescriptor _ _ => true | CallFreePool _ => false end.

Definition is_release (ev : Event) : bool :=
  match ev with CallFreePool _ => true | CallGetFmpAndDescriptor _ _ => false end.

(** Resolver calls that handed a descriptor to the evaluator. *)
Definition is_acquisition (R : Resolver) (ev : Event) : bool :=
  match ev with
  | CallGetFmpAndDescriptor g i =>
      match R g i with Found _ => true | NotFound _ _ => false end
  | CallFreePool _ => false
  end.

Definition resolver_calls (t : list Event) : list Event := filter is_resolve_call t.
Definition releases (t : list Event) : nat := length (filter is_release t).
Definition acquisitions (R : Resolver) (t : list Event) : nat :=
  length (filter (is_acquisition R) t).

(** *** Frames along a run *)

(** The frame a call starts from: the locals as initialised at entry. *)
Definition frame0 (v : OutSlot bool) : Frame := mkFrame v None EFI_SUCCESS [].

(** The frame after the resolver was called for entry [e]. *)
Definition after_call (R : Resolver) (e : FW_DEPENDENCY) (fr : Frame) : Frame :=
  match resolve R e with
  | Found d => mkFrame (Verified fr) (Some d) EFI_SUCCESS (trace fr ++ [call_of e])
  | NotFound code clears =>
      mkFrame (Verified fr) (if clears then None else FmpDesc fr)
              (ENCODE_ERROR code) (trace fr ++ [call_of e])
  end.

Definition after_calls (R : Resolver) (es : list FW_DEPENDENCY) (fr : Frame) : Frame :=
  fold_left (fun f e => after_call R e f) es fr.

(** What follows the dependency block: the store of [TRUE] unless the
    block jumped, then the [EXIT] label. *)
Definition finish (flow : Flow) : Exec EFI_STATUS :=
  match flow with
  | FallThrough => store_Verified true
  | GotoEXIT => ret tt
  end ;;;
  EXIT.

(** [FreePool] at [EXIT] for the descriptor the frame still points to. *)
Definition release_of (fr : Frame) : list Event :=
  match FmpDesc fr with
  | Some d => [CallFreePool d]
  | None => []
  end.

(** What the evaluator looks at in an entry: the component, the image
    index, the version threshold and the two known flag bits. *)
Definition examined (e : FW_DEPENDENCY) : EFI_GUID * Z * Z * Z :=
  (FmpInstance e, ImageIndex e, RequiredVersionInSystem e,
   Z.land (Flags e)
     (Z.lor FW_DEPENDENCY_FLAG_MATCH_EXACT_VERSION FW_DEPENDENCY_FLAG_REQUIRED)).

(** The verdict of a walk over [deps] that runs to its end or to the
    first failing entry. *)
Definition all_satisfied (R : Resolver) (deps : list FW_DEPENDENCY) : bool :=
  negb (existsb (dep_fails R) deps).

(** [fr'] is reached from [fr] by at most [n] calls to the resolver and
    no other call; a descriptor held in [fr'] is the one held in [fr] or
    one the resolver handed out on the way. *)
Definition reached_by_calls (R : Resolver) (n : nat) (fr fr' : Frame) : Prop :=
  exists calls,
    trace fr' = trace fr ++ calls
    /\ (forall ev, In ev calls -> is_resolve_call ev = true)
    /\ (length calls <= n)%nat
    /\ (forall d, FmpDesc fr' = Some d ->
          FmpDesc fr = Some d
          \/ exists g i, In (CallGetFmpAndDescriptor g i) calls /\ R g i = Found d).

(** The frame [fr] with another content of the [*Verified] slot. *)
Definition with_Verified (v : OutSlot bool) (fr : Frame) : Frame :=
  mkFrame v (FmpDesc fr) (Status fr) (trace fr).

End FmpPayloadHeaderLib.
Export FmpPayloadHeaderLib.

(** ** Concrete payloads and a concrete component registry *)

Module Examples.

Definition guid_A : EFI_GUID := le_split 16 1.
Definition guid_B : EFI_GUID := le_split 16 2.
Definition guid_absent : EFI_GUID := le_split 16 9.

(** Component A is installed at version 5, component B at version 7;
    nothing else is present ([EFI_NOT_FOUND], code 14). *)
Definition registry : Resolver :=
  fun g _ =>
    if le_combine g =? 1 then Found (mkDescriptor 5)
    else if le_combine g =? 2 then Found (mkDescriptor 7)
    else NotFound 14 false.

Definition dep (g : EFI_GUID) (required_version flags : Z) : FW_DEPENDENCY :=
  mkFW_DEPENDENCY g required_version 0 0 flags.

(** A payload at address [0x1000]: the fixed header announcing
    [HeaderSize], then the entries, then the image bytes. *)
Definition payload (HeaderSize : Z) (deps : list FW_DEPENDENCY) (image : list byte)
  : Pointer :=
  mkPointer 4096
    (encode_FMP_PAYLOAD_HEADER HeaderSize 3 2
     ++ flat_map encode_FW_DEPENDENCY deps ++ image).

End Examples.

(** ** Arithmetic and memory lemmas *)

Section Arithmetic.

Lemma UINTN_wrap_small z : 0 <= z < 2 ^ 64 -> UINTN_wrap z = z.
Proof. intros H. unfold UINTN_wrap, UINTN_BITS. apply Z.mod_small. exact H. Qed.

Lemma to_INTN_small z : 0 <= z < 2 ^ 63 -> to_INTN z = z.
Proof.
  intros H. unfold to_INTN. rewrite UINTN_wrap_small by lia.
  unfold UINTN_BITS. change (2 ^ (64 - 1)) with (2 ^ 63).
  destruct (Z.ltb_spec z (2 ^ 63)); lia.
Qed.

Lemma EFI_ERROR_ENCODE_ERROR code : EFI_ERROR (ENCODE_ERROR code) = true.
Proof.
  unfold EFI_ERROR, to_INTN, ENCODE_ERROR, MAX_BIT, UINTN_wrap, UINTN_BITS.
  change (64 - 1) with 63.
  set (u := Z.lor (2 ^ 63) code mod 2 ^ 64).
  assert (Hr : 0 <= u < 2 ^ 64) by (apply Z.mod_pos_bound; lia).
  assert (Hb : Z.testbit u 63 = true).
  { unfold u. rewrite Z.mod_pow2_bits_low by lia.
    rewrite Z.lor_spec, Z.pow2_bits_true by lia. reflexivity. }
  destruct (Z.ltb_spec u (2 ^ 63)) as [Hlt | Hge].
  - apply Z.testbit_true in Hb; [ | lia ].
    rewrite Z.div_small in Hb by lia. discriminate Hb.
  - apply Z.ltb_lt. lia.
Qed.

Lemma DependencyBytes_of_UINT32 hs :
  0 <= hs < 2 ^ 32 -> DependencyBytes_of hs = hs - 16.
Proof.
  intros H. unfold DependencyBytes_of, sizeof_FMP_PAYLOAD_HEADER.
  rewrite (to_INTN_small hs) by lia.
  unfold to_INTN, UINTN_sub, UINTN_wrap, UINTN_BITS.
  change (64 - 1) with 63.
  rewrite Z.mod_mod by lia.
  destruct (Z_lt_le_dec hs 16) as [Hlt | Hge].
  - replace ((hs - 16) mod 2 ^ 64) with (hs - 16 + 2 ^ 64).
    + destruct (Z.ltb_spec (hs - 16 + 2 ^ 64) (2 ^ 63)); lia.
    + apply Z.mod_unique with (q := -1); lia.
  - rewrite Z.mod_small by lia.
    destruct (Z.ltb_spec (hs - 16) (2 ^ 63)); lia.
Qed.

End Arithmetic.

Section Memory.

Lemma read_bytes_length data off n bs :
  read_bytes data off n = Some bs -> length bs = n.
Proof.
  unfold read_bytes.
  destruct ((0 <=? off) && (off + Z.of_nat n <=? Z.of_nat (length data))) eqn:E;
    [ | discriminate ].
  intros [= <-]. apply andb_prop in E as [E1 E2].
  apply Z.leb_le in E1, E2.
  rewrite length_firstn, length_skipn. lia.
Qed.

Lemma read_bytes_Some data off n :
  0 <= off -> off + Z.of_nat n <= Z.of_nat (length data) ->
  read_bytes data off n = Some (firstn n (skipn (Z.to_nat off) data)).
Proof.
  intros H1 H2. unfold read_bytes.
  apply Z.leb_le in H1, H2. rewrite H1, H2. reflexivity.
Qed.

Lemma read_bytes_None data off n :
  Z.of_nat (length data) < off + Z.of_nat n -> read_bytes data off n = None.
Proof.
  intros H. unfold read_bytes.
  apply Z.leb_gt in H. rewrite H, andb_false_r. reflexivity.
Qed.

Lemma read_bytes_inv data off n bs :
  read_bytes data off n = Some bs ->
  0 <= off /\ off + Z.of_nat n <= Z.of_nat (length data)
  /\ bs = firstn n (skipn (Z.to_nat off) data).
Proof.
  unfold read_bytes.
  destruct ((0 <=? off) && (off + Z.of_nat n <=? Z.of_nat (length data))) eqn:E;
    [ | discriminate ].
  intros [= <-]. apply andb_prop in E as [E1 E2].
  apply Z.leb_le in E1, E2. auto.
Qed.

(** A read inside a range that was read gives the matching slice. *)
Lemma read_bytes_slice data off n bs (a m : nat) :
  read_bytes data off n = Some bs -> (a + m <= n)%nat ->
  read_bytes data (off + Z.of_nat a) m = Some (firstn m (skipn a bs)).
Proof.
  intros H Hle. apply read_bytes_inv in H as (H0 & H1 & ->).
  rewrite read_bytes_Some by lia. f_equal.
  replace (Z.to_nat (off + Z.of_nat a)) with (a + Z.to_nat off)%nat by lia.
  rewrite <- skipn_skipn.
  set (l := skipn (Z.to_nat off) data).
  rewrite skipn_firstn_comm, firstn_firstn.
  f_equal. lia.
Qed.

Lemma load_range p off n v :
  load p off n = Returns v -> 0 <= v < 2 ^ (8 * Z.of_nat n).
Proof.
  unfold load. destruct (read_bytes (pointee p) off n) as [bs | ] eqn:E; [ | discriminate ].
  intros [= <-]. apply read_bytes_length in E. rewrite <- E.
  apply le_combine_bound.
Qed.

End Memory.


(** ** The dependency walk *)

(** Steps of the evaluator at the head of a goal: a load whose result is
    known, the test of [Status], a jump to [EXIT]. *)
Ltac step_load H := unfold bind at 1; unfold lift at 1; rewrite H.
Ltac step_status := unfold bind at 1; unfold get_Status; cbn [Status].
Ltac run_jump :=
  unfold bind, store_Verified, set_Status, ret;
  cbn [Verified FmpDesc Status trace].

Section Walk.

Variable R : Resolver.
Variable Header : Pointer.

Lemma Dep_at_fields off e :
  Dep_at Header off = Some e ->
  load Header (off + offsetof_ImageIndex) 1 = Returns (ImageIndex e)
  /\ load_bytes Header (off + offsetof_FmpInstance) 16 = Returns (FmpInstance e)
  /\ load Header (off + offsetof_RequiredVersionInSystem) 4
     = Returns (RequiredVersionInSystem e)
  /\ load Header (off + offsetof_Flags) 2 = Returns (Flags e).
Proof.
  unfold Dep_at. destruct (read_bytes (pointee Header) off 24) as [bs | ] eqn:E;
    [ | discriminate ].
  intros [= <-]. unfold load, load_bytes.
  pose proof (read_bytes_slice _ _ _ _ 20 1 E ltac:(lia)) as H20.
  pose proof (read_bytes_slice _ _ _ _ 0 16 E ltac:(lia)) as H0.
  pose proof (read_bytes_slice _ _ _ _ 16 4 E ltac:(lia)) as H16.
  pose proof (read_bytes_slice _ _ _ _ 22 2 E ltac:(lia)) as H22.
  change (Z.of_nat 20) with offsetof_ImageIndex in H20.
  change (Z.of_nat 0) with offsetof_FmpInstance in H0.
  change (Z.of_nat 16) with offsetof_RequiredVersionInSystem in H16.
  change (Z.of_nat 22) with offsetof_Flags in H22.
  rewrite H20, H0, H16, H22. repeat split.
Qed.

Lemma walk_step_passes n off e fr :
  Dep_at Header off = Some e -> dep_fails R e = false ->
  walk R Header (S n) off fr
  = walk R Header n (off + sizeof_FW_DEPENDENCY) (after_call R e fr).
Proof.
  intros Hd Hf. apply Dep_at_fields in Hd as (Hi & Hg & Hr & Hfl).
  cbn [walk]. step_load Hi.
  step_load Hg.
  unfold bind at 1. unfold call_GetFmpAndDescriptor.
  unfold dep_fails, has_REQUIRED, has_MATCH_EXACT_VERSION in Hf.
  unfold after_call, call_of. unfold resolve in *.
  destruct (R (FmpInstance e) (ImageIndex e)) as [d | code clears].
  - step_status.
    change (EFI_ERROR EFI_SUCCESS) with false. cbv iota.
    step_load Hr.
    unfold bind at 1. unfold FmpDesc_Version at 1; cbn [FmpDesc Version].
    apply orb_false_elim in Hf as [Hv Hx]. rewrite Hv.
    step_load Hfl.
    cbn [Version]. rewrite Hx.
    unfold bind at 1. unfold set_Status; cbn [Verified FmpDesc Status trace]. reflexivity.
  - step_status.
    rewrite EFI_ERROR_ENCODE_ERROR.
    step_load Hfl.
    rewrite Hf. reflexivity.
Qed.

Lemma walk_step_fails n off e fr :
  Dep_at Header off = Some e -> dep_fails R e = true ->
  walk R Header (S n) off fr
  = match Verified fr with
    | Some _ =>
        Returns (GotoEXIT,
                 mkFrame (Some false) (FmpDesc (after_call R e fr)) EFI_SUCCESS
                         (trace fr ++ [call_of e]))
    | None => Undefined NullPointerWrite
    end.
Proof.
  intros Hd Hf. apply Dep_at_fields in Hd as (Hi & Hg & Hr & Hfl).
  cbn [walk]. step_load Hi.
  step_load Hg.
  unfold bind at 1. unfold call_GetFmpAndDescriptor.
  unfold dep_fails, has_REQUIRED, has_MATCH_EXACT_VERSION in Hf.
  unfold after_call, call_of. unfold resolve in *.
  destruct (R (FmpInstance e) (ImageIndex e)) as [d | code clears].
  - step_status.
    change (EFI_ERROR EFI_SUCCESS) with false. cbv iota.
    step_load Hr.
    unfold bind at 1. unfold FmpDesc_Version at 1; cbn [FmpDesc Version].
    destruct (RequiredVersionInSystem e >? Version d) eqn:Hv.
    + run_jump.
      destruct (Verified fr); reflexivity.
    + step_load Hfl.
      cbn [orb] in Hf. cbn [Version]. rewrite Hf.
      run_jump.
      destruct (Verified fr); reflexivity.
  - step_status.
    rewrite EFI_ERROR_ENCODE_ERROR.
    step_load Hfl.
    rewrite Hf.
    run_jump.
    destruct (Verified fr); reflexivity.
Qed.

(** A read of an entry that starts at or past the end of the buffer. *)
Lemma walk_step_outside n off fr :
  Z.of_nat (length (pointee Header)) <= off + offsetof_ImageIndex ->
  walk R Header (S n) off fr = Undefined OutOfBoundsRead.
Proof.
  intros H. cbn [walk]. unfold bind at 1. unfold lift at 1.
  unfold load. rewrite read_bytes_None by lia. reflexivity.
Qed.

Lemma Verified_after_call e fr : Verified (after_call R e fr) = Verified fr.
Proof. unfold after_call. destruct (resolve R e); reflexivity. Qed.

Lemma trace_after_call e fr : trace (after_call R e fr) = trace fr ++ [call_of e].
Proof. unfold after_call. destruct (resolve R e); reflexivity. Qed.

Lemma Verified_after_calls es : forall fr,
  Verified (after_calls R es fr) = Verified fr.
Proof.
  induction es as [ | e es IH]; intros fr; cbn [after_calls fold_left].
  - reflexivity.
  - fold (after_calls R es (after_call R e fr)). rewrite IH. apply Verified_after_call.
Qed.

Lemma trace_after_calls es : forall fr,
  trace (after_calls R es fr) = trace fr ++ map call_of es.
Proof.
  induction es as [ | e es IH]; intros fr; cbn [after_calls fold_left map].
  - symmetry. apply app_nil_r.
  - fold (after_calls R es (after_call R e fr)).
    rewrite IH, trace_after_call, <- app_assoc. reflexivity.
Qed.

Lemma after_calls_snoc es e fr :
  after_calls R (es ++ [e]) fr = after_call R e (after_calls R es fr).
Proof. unfold after_calls. rewrite fold_left_app. reflexivity. Qed.

Lemma Deps_at_cons off n e es :
  Deps_at Header off (S n) = Some (e :: es) ->
  Dep_at Header off = Some e
  /\ Deps_at Header (off + sizeof_FW_DEPENDENCY) n = Some es.
Proof.
  cbn [Deps_at]. destruct (Dep_at Header off) as [e' | ]; [ | discriminate ].
  destruct (Deps_at Header (off + sizeof_FW_DEPENDENCY) n) as [es' | ];
    [ | discriminate ].
  intros [= -> ->]. split; reflexivity.
Qed.

Lemma Deps_at_app pre : forall off post,
  Deps_at Header off (length (pre ++ post)) = Some (pre ++ post) ->
  Deps_at Header off (length pre) = Some pre
  /\ Deps_at Header (off + sizeof_FW_DEPENDENCY * Z.of_nat (length pre)) (length post)
     = Some post.
Proof.
  induction pre as [ | e pre IH]; intros off post H.
  - cbn [length app] in *. split; [ reflexivity | ].
    replace (off + sizeof_FW_DEPENDENCY * Z.of_nat 0) with off by lia. exact H.
  - cbn [length app] in H. apply Deps_at_cons in H as [He H].
    apply IH in H as [Hpre Hpost]. split.
    + cbn [length Deps_at]. rewrite He, Hpre. reflexivity.
    + rewrite <- Hpost. f_equal. cbn [length]. lia.
Qed.

(** Entries that do not fail are walked through one after the other. *)
Lemma walk_passes es : forall off n fr,
  Deps_at Header off (length es) = Some es ->
  (forall e, In e es -> dep_fails R e = false) ->
  walk R Header (length es + n) off fr
  = walk R Header n (off + sizeof_FW_DEPENDENCY * Z.of_nat (length es))
         (after_calls R es fr).
Proof.
  induction es as [ | e es IH]; intros off n fr Hd Hok.
  - cbn [length Nat.add after_calls fold_left].
    replace (off + sizeof_FW_DEPENDENCY * Z.of_nat 0) with off by lia. reflexivity.
  - cbn [length] in Hd. apply Deps_at_cons in Hd as [He Hes].
    cbn [length Nat.add].
    rewrite (walk_step_passes _ _ e) by (auto using in_eq).
    rewrite IH by (auto using in_cons).
    cbn [after_calls fold_left]. f_equal.
    unfold sizeof_FW_DEPENDENCY. lia.
Qed.

(** The first failing entry stops the walk. *)
Lemma walk_first_failure pre e post fr :
  Deps_at Header sizeof_FMP_PAYLOAD_HEADER (length (pre ++ e :: post))
    = Some (pre ++ e :: post) ->
  (forall x, In x pre -> dep_fails R x = false) ->
  dep_fails R e = true ->
  walk R Header (length (pre ++ e :: post)) sizeof_FMP_PAYLOAD_HEADER fr
  = match Verified fr with
    | Some _ =>
        Returns (GotoEXIT,
                 mkFrame (Some false) (FmpDesc (after_calls R (pre ++ [e]) fr))
                         EFI_SUCCESS (trace fr ++ map call_of (pre ++ [e])))
    | None => Undefined NullPointerWrite
    end.
Proof.
  intros Hd Hpre He.
  apply Deps_at_app in Hd as [Hd1 Hd2]. cbn [length] in Hd2.
  apply Deps_at_cons in Hd2 as [Hd2 _].
  rewrite length_app. cbn [length].
  rewrite walk_passes by assumption.
  rewrite (walk_step_fails _ _ e) by assumption.
  rewrite Verified_after_calls, trace_after_calls, after_calls_snoc.
  rewrite map_app, app_assoc. reflexivity.
Qed.

Lemma first_failure (es : list FW_DEPENDENCY) :
  (exists e, In e es /\ dep_fails R e = true) ->
  exists pre e post,
    es = pre ++ e :: post
    /\ (forall x, In x pre -> dep_fails R x = false)
    /\ dep_fails R e = true.
Proof.
  induction es as [ | a es IH]; intros (e & Hin & He).
  - destruct Hin.
  - destruct (dep_fails R a) eqn:Ha.
    + exists [], a, es. repeat split; [ intros x [] | exact Ha ].
    + destruct Hin as [-> | Hin]; [ congruence | ].
      destruct IH as (pre & f & post & -> & Hpre & Hf); [ eauto | ].
      exists (a :: pre), f, post. repeat split; [ | exact Hf ].
      intros x [<- | Hx]; auto.
Qed.

End Walk.


Section Evaluate.

Variable R : Resolver.
Variable Header : Pointer.

Lemma evaluate_valid_signature hs fr :
  load Header offsetof_Signature 4 = Returns FMP_PAYLOAD_HEADER_SIGNATURE ->
  load Header offsetof_HeaderSize 4 = Returns hs ->
  evaluate R Header fr
  = (flow <-
       (if hs - 16 >? 0 then
          if negb ((hs - 16) mod 24 =? 0) then
            store_Verified false ;;; set_Status EFI_INVALID_PARAMETER ;;; ret GotoEXIT
          else walk R Header (Z.to_nat ((hs - 16) / 24)) sizeof_FMP_PAYLOAD_HEADER
        else ret FallThrough) ;;
     finish flow) fr.
Proof.
  intros Hsig Hhs. pose proof (load_range _ _ _ _ Hhs) as Hr.
  change (2 ^ (8 * Z.of_nat 4)) with (2 ^ 32) in Hr.
  unfold evaluate. step_load Hsig.
  rewrite Z.eqb_refl. cbn [negb].
  step_load Hhs.
  rewrite DependencyBytes_of_UINT32 by exact Hr.
  unfold finish.
  destruct (hs - 16 >? 0) eqn:Hpos; [ | reflexivity ].
  assert (0 < hs - 16) by (apply Z.gtb_lt; exact Hpos).
  unfold UINTN_mod, UINTN_div, sizeof_FW_DEPENDENCY.
  rewrite !UINTN_wrap_small by lia.
  rewrite to_INTN_small; [ reflexivity | ].
  split; [ apply Z.div_pos; lia | ].
  apply Z.div_lt_upper_bound; lia.
Qed.

Lemma evaluate_entries n fr :
  load Header offsetof_Signature 4 = Returns FMP_PAYLOAD_HEADER_SIGNATURE ->
  load Header offsetof_HeaderSize 4
    = Returns (sizeof_FMP_PAYLOAD_HEADER + sizeof_FW_DEPENDENCY * Z.of_nat n) ->
  evaluate R Header fr
  = (flow <- walk R Header n sizeof_FMP_PAYLOAD_HEADER ;; finish flow) fr.
Proof.
  intros Hsig Hhs. rewrite (evaluate_valid_signature _ _ Hsig Hhs).
  unfold sizeof_FMP_PAYLOAD_HEADER, sizeof_FW_DEPENDENCY.
  replace (16 + 24 * Z.of_nat n - 16) with (Z.of_nat n * 24) by lia.
  rewrite Z.mod_mul, Z.div_mul by lia. rewrite Nat2Z.id. cbn [Z.eqb negb].
  destruct (Z.of_nat n * 24 >? 0) eqn:Hpos; [ reflexivity | ].
  assert (n = O) as -> by (rewrite Z.gtb_ltb in Hpos; apply Z.ltb_ge in Hpos; lia).
  reflexivity.
Qed.

Lemma EXIT_frame fr :
  EXIT fr
  = Returns (Status fr,
             mkFrame (Verified fr) (FmpDesc fr) (Status fr) (trace fr ++ release_of fr)).
Proof.
  unfold EXIT, release_of, bind, get_FmpDesc, get_Status, log, ret.
  destruct fr as [v [d | ] s t]; cbn [Verified FmpDesc Status trace].
  - reflexivity.
  - rewrite app_nil_r. reflexivity.
Qed.

(** All entries pass or are vacuously satisfied. *)
Lemma Verify_no_failure deps b :
  well_formed Header deps ->
  (forall e, In e deps -> dep_fails R e = false) ->
  VerifyFmpPayloadDependencies R Header (Some b)
  = Returns (mkResult (Status (after_calls R deps (frame0 (Some b))))
                      (Some true)
                      (map call_of deps
                       ++ release_of (after_calls R deps (frame0 (Some b))))).
Proof.
  intros (Hnn & Hsig & Hhs & Hd) Hok.
  unfold VerifyFmpPayloadDependencies. rewrite Hnn.
  fold (frame0 (Some b)).
  rewrite (evaluate_entries _ _ Hsig Hhs).
  unfold bind at 1.
  replace (length deps) with (length deps + 0)%nat by lia.
  rewrite walk_passes by assumption.
  cbn [walk]. unfold ret at 1. unfold finish, bind at 1, store_Verified.
  rewrite Verified_after_calls. cbn [frame0 Verified].
  rewrite EXIT_frame. cbn [Verified FmpDesc Status trace].
  rewrite trace_after_calls. reflexivity.
Qed.

(** Some entry fails: the walk stops at the first such entry. *)
Lemma Verify_first_failure pre e post b :
  well_formed Header (pre ++ e :: post) ->
  (forall x, In x pre -> dep_fails R x = false) ->
  dep_fails R e = true ->
  VerifyFmpPayloadDependencies R Header (Some b)
  = Returns (mkResult EFI_SUCCESS (Some false)
               (map call_of (pre ++ [e])
                ++ match FmpDesc (after_calls R (pre ++ [e]) (frame0 (Some b))) with
                   | Some d => [CallFreePool d]
                   | None => []
                   end)).
Proof.
  intros (Hnn & Hsig & Hhs & Hd) Hok He.
  unfold VerifyFmpPayloadDependencies. rewrite Hnn.
  fold (frame0 (Some b)).
  rewrite (evaluate_entries _ _ Hsig Hhs).
  unfold bind at 1.
  rewrite (walk_first_failure R Header pre e post) by assumption.
  cbn [frame0 Verified].
  unfold finish, bind at 1, ret at 1.
  rewrite EXIT_frame. cbn [Verified FmpDesc Status trace app]. reflexivity.
Qed.

End Evaluate.

Section DependencyEvaluator.

Variable R : Resolver.
Variable Header : Pointer.

Hypothesis Header_not_NULL : is_NULL Header = false.
Hypothesis Signature_valid :
  load Header offsetof_Signature 4 = Returns FMP_PAYLOAD_HEADER_SIGNATURE.

(** A [HeaderSize] below the fixed header size is taken for "no
    dependencies": the call succeeds with [TRUE]. *)
Lemma Verify_short_header hs b :
  load Header offsetof_HeaderSize 4 = Returns hs ->
  hs < sizeof_FMP_PAYLOAD_HEADER ->
  VerifyFmpPayloadDependencies R Header (Some b)
  = Returns (mkResult EFI_SUCCESS (Some true) []).
Proof.
  intros Hhs Hlt. unfold sizeof_FMP_PAYLOAD_HEADER in Hlt.
  unfold VerifyFmpPayloadDependencies. rewrite Header_not_NULL.
  rewrite (evaluate_valid_signature R Header hs _ Signature_valid Hhs).
  replace (hs - 16 >? 0) with false by (symmetry; rewrite Z.gtb_ltb; apply Z.ltb_ge; lia).
  reflexivity.
Qed.

Lemma Verify_misaligned hs b :
  load Header offsetof_HeaderSize 4 = Returns hs ->
  0 < hs - sizeof_FMP_PAYLOAD_HEADER ->
  (hs - sizeof_FMP_PAYLOAD_HEADER) mod sizeof_FW_DEPENDENCY <> 0 ->
  VerifyFmpPayloadDependencies R Header (Some b)
  = Returns (mkResult EFI_INVALID_PARAMETER (Some false) []).
Proof.
  unfold sizeof_FMP_PAYLOAD_HEADER, sizeof_FW_DEPENDENCY.
  intros Hhs Hpos Hrem.
  unfold VerifyFmpPayloadDependencies. rewrite Header_not_NULL.
  rewrite (evaluate_valid_signature R Header hs _ Signature_valid Hhs).
  replace (hs - 16 >? 0) with true by (symmetry; apply Z.gtb_lt; lia).
  apply Z.eqb_neq in Hrem. rewrite Hrem. reflexivity.
Qed.

(** With a null [Verified] the walk can only end by falling through,
    [Verified] still null: every jump to [EXIT] writes first. *)
Lemma walk_null_Verified n : forall off fr flow fr',
  Verified fr = None ->
  walk R Header n off fr = Returns (flow, fr') ->
  flow = FallThrough /\ Verified fr' = None.
Proof.
  induction n as [ | n IH]; intros off fr flow fr' Hv H.
  - cbn [walk] in H. unfold ret in H. injection H as <- <-. auto.
  - cbn [walk] in H. unfold bind at 1 in H. unfold lift at 1 in H.
    destruct (load Header (off + offsetof_ImageIndex) 1) as [idx | f];
      [ | discriminate ].
    unfold bind at 1 in H. unfold lift at 1 in H.
    destruct (load_bytes Header (off + offsetof_FmpInstance) 16) as [g | f];
      [ | discriminate ].
    unfold bind at 1 in H. unfold call_GetFmpAndDescriptor in H.
    destruct (R g idx) as [d | code clears].
    + unfold bind at 1 in H. unfold get_Status in H; cbn [Status] in H.
      change (EFI_ERROR EFI_SUCCESS) with false in H. cbv iota in H.
      unfold bind at 1 in H. unfold lift at 1 in H.
      destruct (load Header (off + offsetof_RequiredVersionInSystem) 4) as [rv | f];
        [ | discriminate ].
      unfold bind at 1 in H. unfold FmpDesc_Version at 1 in H.
      cbn [FmpDesc Version] in H.
      destruct (rv >? Version d).
      { unfold bind, store_Verified in H; cbn [Verified] in H.
        rewrite Hv in H. discriminate. }
      unfold bind at 1 in H. unfold lift at 1 in H.
      destruct (load Header (off + offsetof_Flags) 2) as [fl | f]; [ | discriminate ].
      destruct ((Z.land fl FW_DEPENDENCY_FLAG_MATCH_EXACT_VERSION
                 =? FW_DEPENDENCY_FLAG_MATCH_EXACT_VERSION) && negb (rv =? Version d)).
      { unfold bind, store_Verified in H; cbn [Verified] in H.
        rewrite Hv in H. discriminate. }
      unfold bind at 1 in H. unfold set_Status in H.
      cbn [Verified FmpDesc Status trace] in H.
      apply IH in H; [ exact H | exact Hv ].
    + unfold bind at 1 in H. unfold get_Status in H; cbn [Status] in H.
      rewrite EFI_ERROR_ENCODE_ERROR in H.
      unfold bind at 1 in H. unfold lift at 1 in H.
      destruct (load Header (off + offsetof_Flags) 2) as [fl | f]; [ | discriminate ].
      destruct (Z.land fl FW_DEPENDENCY_FLAG_REQUIRED =? FW_DEPENDENCY_FLAG_REQUIRED).
      { unfold bind, store_Verified in H; cbn [Verified] in H.
        rewrite Hv in H. discriminate. }
      apply IH in H; [ exact H | exact Hv ].
Qed.

(** A null [Verified] is never answered with a status: every path to a
    [return] past the signature check writes through the pointer. *)
Lemma Verify_null_Verified_undefined :
  exists f, VerifyFmpPayloadDependencies R Header None = Undefined f.
Proof.
  destruct (VerifyFmpPayloadDependencies R Header None) as [r | f] eqn:E;
    [ exfalso | exists f; reflexivity ].
  unfold VerifyFmpPayloadDependencies in E. rewrite Header_not_NULL in E.
  fold (frame0 None) in E.
  destruct (load Header offsetof_HeaderSize 4) as [hs | f] eqn:Hhs.
  - rewrite (evaluate_valid_signature R Header hs _ Signature_valid Hhs) in E.
    unfold bind at 1 in E.
    destruct (hs - 16 >? 0).
    + destruct (negb ((hs - 16) mod 24 =? 0)); [ discriminate | ].
      destruct (walk R Header (Z.to_nat ((hs - 16) / 24)) sizeof_FMP_PAYLOAD_HEADER
                  (frame0 None)) as [[flow fr'] | f] eqn:Hw; [ | discriminate ].
      apply walk_null_Verified in Hw as [-> Hv]; [ | reflexivity ].
      unfold finish, bind, store_Verified in E. rewrite Hv in E. discriminate.
    + discriminate.
  - unfold evaluate, bind, lift in E. rewrite Signature_valid in E.
    rewrite Z.eqb_refl in E. cbn [negb] in E. rewrite Hhs in E. discriminate.
Qed.

End DependencyEvaluator.

Section Verdicts.

Variable R : Resolver.
Variable Header : Pointer.

(** The status returned with a TRUE verdict is the one left by the last
    entry: an error status when that entry was vacuously satisfied. *)
Lemma Verify_last_entry_vacuous pre e code clears old :
  well_formed Header (pre ++ [e]) ->
  (forall x, In x pre -> dep_fails R x = false) ->
  resolve R e = NotFound code clears ->
  has_REQUIRED e = false ->
  exists calls,
    VerifyFmpPayloadDependencies R Header (Some old)
    = Returns (mkResult (ENCODE_ERROR code) (Some true) calls).
Proof.
  intros Hwf Hpre Hres Hreq.
  assert (Hok : forall x, In x (pre ++ [e]) -> dep_fails R x = false).
  { intros x Hx. apply in_app_or in Hx as [Hx | [<- | []]]; [ auto | ].
    unfold dep_fails. rewrite Hres. exact Hreq. }
  rewrite (Verify_no_failure R Header _ old Hwf Hok).
  rewrite after_calls_snoc. unfold after_call at 1. rewrite Hres.
  cbn [Status]. eexists. reflexivity.
Qed.

Lemma Verify_last_entry_resolved pre e d old :
  well_formed Header (pre ++ [e]) ->
  (forall x, In x (pre ++ [e]) -> dep_fails R x = false) ->
  resolve R e = Found d ->
  VerifyFmpPayloadDependencies R Header (Some old)
  = Returns (mkResult EFI_SUCCESS (Some true)
               (map call_of (pre ++ [e]) ++ [CallFreePool d])).
Proof.
  intros Hwf Hok Hres.
  rewrite (Verify_no_failure R Header _ old Hwf Hok).
  rewrite after_calls_snoc. unfold release_of, after_call. rewrite Hres.
  reflexivity.
Qed.

Lemma acquisitions_all_resolved es :
  (forall e, In e es -> exists d, resolve R e = Found d) ->
  acquisitions R (map call_of es) = length es.
Proof.
  unfold acquisitions. induction es as [ | e es IH]; intros H; [ reflexivity | ].
  cbn [map filter is_acquisition call_of].
  destruct (H e (in_eq _ _)) as [d Hd]. unfold resolve in Hd. rewrite Hd.
  cbn [length]. rewrite IH; [ reflexivity | ].
  intros x Hx. apply H. right. exact Hx.
Qed.

Lemma releases_of_calls es : releases (map call_of es) = 0%nat.
Proof. unfold releases. induction es as [ | e es IH]; [ reflexivity | exact IH ]. Qed.

(** However many descriptors the resolver hands out, one is released. *)
Lemma Verify_all_resolved pre e old :
  well_formed Header (pre ++ [e]) ->
  (forall x, In x (pre ++ [e]) ->
     dep_fails R x = false /\ exists d, resolve R x = Found d) ->
  exists r,
    VerifyFmpPayloadDependencies R Header (Some old) = Returns r
    /\ acquisitions R (Calls r) = S (length pre)
    /\ releases (Calls r) = 1%nat.
Proof.
  intros Hwf Hall.
  destruct (Hall e) as [_ [d Hd]]; [ apply in_or_app; right; left; reflexivity | ].
  eexists. split.
  - apply (Verify_last_entry_resolved pre e d old Hwf); [ | exact Hd ].
    intros x Hx. apply Hall. exact Hx.
  - cbn [Calls]. split.
    + unfold acquisitions. rewrite filter_app, length_app.
      fold (acquisitions R (map call_of (pre ++ [e]))).
      rewrite acquisitions_all_resolved by (intros x Hx; apply Hall; exact Hx).
      rewrite length_app. cbn. lia.
    + unfold releases. rewrite filter_app, length_app.
      fold (releases (map call_of (pre ++ [e]))).
      rewrite releases_of_calls. reflexivity.
Qed.

End Verdicts.

Lemma resolver_calls_of_walk es tail :
  (forall ev, In ev tail -> is_resolve_call ev = false) ->
  resolver_calls (map call_of es ++ tail) = map call_of es.
Proof.
  intros Ht. unfold resolver_calls. rewrite filter_app.
  replace (filter is_resolve_call tail) with (@nil Event).
  - rewrite app_nil_r. induction es as [ | e es IH]; cbn; [ | rewrite IH ]; reflexivity.
  - symmetry. induction tail as [ | ev tail IH]; [ reflexivity | ].
    cbn [filter]. rewrite (Ht ev (in_eq _ _)). apply IH.
    intros x Hx. apply Ht. right. exact Hx.
Qed.

(** ** Accessor lemmas *)

Section Encoding.

Lemma EFI_SUCCESS_not_EFI_INVALID_PARAMETER : EFI_SUCCESS <> EFI_INVALID_PARAMETER.
Proof. vm_compute. discriminate. Qed.

Lemma slice_app_mid (pre mid post : list byte) (n m : nat) :
  length pre = n -> length mid = m ->
  firstn m (skipn n (pre ++ mid ++ post)) = mid.
Proof.
  intros <- <-.
  rewrite skipn_app, skipn_all, Nat.sub_diag. cbn [app skipn].
  rewrite firstn_app, firstn_all, Nat.sub_diag. cbn [firstn].
  apply app_nil_r.
Qed.

Lemma read_bytes_app_mid (pre mid post : list byte) :
  read_bytes (pre ++ mid ++ post) (Z.of_nat (length pre)) (length mid) = Some mid.
Proof.
  rewrite read_bytes_Some.
  - rewrite Nat2Z.id. f_equal. apply slice_app_mid; reflexivity.
  - lia.
  - rewrite !length_app. lia.
Qed.

Lemma le_combine_le_split_small (n : nat) (v : Z) :
  0 <= v < 2 ^ (Z.of_nat n * 8) -> le_combine (le_split n v) = v.
Proof. intros H. rewrite le_combine_split. apply Z.mod_small. exact H. Qed.

(** Reading back a 4-byte field that follows [pre]. *)
Lemma load_field addr (pre : list byte) (v : Z) (post : list byte) :
  0 <= v < 2 ^ 32 ->
  load (mkPointer addr (pre ++ le_split 4 v ++ post)) (Z.of_nat (length pre)) 4
  = Returns v.
Proof.
  intros Hv. unfold load. cbn [pointee].
  pose proof (read_bytes_app_mid pre (le_split 4 v) post) as H.
  rewrite length_le_split in H. rewrite H.
  rewrite le_combine_le_split_small by exact Hv. reflexivity.
Qed.

Variables (HeaderSize FwVersion LowestSupportedVersion : Z).
Variable rest : list byte.
Variable addr : Z.

Lemma encoded_Signature :
  load (mkPointer addr
          (encode_FMP_PAYLOAD_HEADER HeaderSize FwVersion LowestSupportedVersion ++ rest))
       offsetof_Signature 4
  = Returns FMP_PAYLOAD_HEADER_SIGNATURE.
Proof.
  unfold encode_FMP_PAYLOAD_HEADER. rewrite <- !app_assoc.
  apply (load_field addr [] FMP_PAYLOAD_HEADER_SIGNATURE).
  vm_compute. split; [ discriminate | reflexivity ].
Qed.

Lemma encoded_HeaderSize :
  0 <= HeaderSize < 2 ^ 32 ->
  load (mkPointer addr
          (encode_FMP_PAYLOAD_HEADER HeaderSize FwVersion LowestSupportedVersion ++ rest))
       offsetof_HeaderSize 4
  = Returns HeaderSize.
Proof.
  intros H. unfold encode_FMP_PAYLOAD_HEADER. rewrite <- !app_assoc.
  exact (load_field addr (le_split 4 FMP_PAYLOAD_HEADER_SIGNATURE) HeaderSize _ H).
Qed.

Lemma encoded_FwVersion :
  0 <= FwVersion < 2 ^ 32 ->
  load (mkPointer addr
          (encode_FMP_PAYLOAD_HEADER HeaderSize FwVersion LowestSupportedVersion ++ rest))
       offsetof_FwVersion 4
  = Returns FwVersion.
Proof.
  intros H. unfold encode_FMP_PAYLOAD_HEADER. rewrite <- !app_assoc.
  rewrite (app_assoc (le_split 4 FMP_PAYLOAD_HEADER_SIGNATURE)).
  pose proof (load_field addr
                (le_split 4 FMP_PAYLOAD_HEADER_SIGNATURE ++ le_split 4 HeaderSize)
                FwVersion (le_split 4 LowestSupportedVersion ++ rest) H) as E.
  rewrite length_app, !length_le_split in E. exact E.
Qed.

Lemma length_encode_FMP_PAYLOAD_HEADER :
  length (encode_FMP_PAYLOAD_HEADER HeaderSize FwVersion LowestSupportedVersion) = 16%nat.
Proof. reflexivity. Qed.

Lemma length_encode_FW_DEPENDENCY e : length (encode_FW_DEPENDENCY e) = 24%nat.
Proof.
  unfold encode_FW_DEPENDENCY. rewrite !length_app, !length_le_split.
  rewrite length_firstn, length_app, repeat_length. lia.
Qed.

Lemma decode_encode_FW_DEPENDENCY e :
  FW_DEPENDENCY_fits e -> decode_FW_DEPENDENCY (encode_FW_DEPENDENCY e) = e.
Proof.
  intros (Hg & Hr & Hi & Hres & Hf). destruct e as [g rv idx rsv fl].
  cbn [FmpInstance RequiredVersionInSystem ImageIndex Reserved Flags] in *.
  unfold encode_FW_DEPENDENCY, decode_FW_DEPENDENCY.
  cbn [FmpInstance RequiredVersionInSystem ImageIndex Reserved Flags].
  replace (firstn 16 (g ++ repeat Byte.x00 16)) with g
    by (rewrite firstn_app, firstn_all2, Hg by lia; cbn; symmetry; apply app_nil_r).
  f_equal.
  - exact (slice_app_mid [] g _ 0 16 eq_refl Hg).
  - rewrite (slice_app_mid g (le_split 4 rv) _ 16 4 Hg (length_le_split _ _)).
    apply le_combine_le_split_small. exact Hr.
  - rewrite (app_assoc g).
    rewrite (slice_app_mid (g ++ le_split 4 rv) (le_split 1 idx) _ 20 1);
      [ apply le_combine_le_split_small; exact Hi
      | rewrite length_app, length_le_split; lia
      | apply length_le_split ].
  - rewrite (app_assoc g), (app_assoc (g ++ _)).
    rewrite (slice_app_mid ((g ++ le_split 4 rv) ++ le_split 1 idx) (le_split 1 rsv) _ 21 1);
      [ apply le_combine_le_split_small; exact Hres
      | rewrite !length_app, !length_le_split; lia
      | apply length_le_split ].
  - rewrite (app_assoc g), (app_assoc (g ++ _)), (app_assoc ((g ++ _) ++ _)).
    rewrite <- (app_nil_r (le_split 2 fl)).
    rewrite (slice_app_mid (((g ++ le_split 4 rv) ++ le_split 1 idx) ++ le_split 1 rsv)
               (le_split 2 fl) [] 22 2);
      [ apply le_combine_le_split_small; exact Hf
      | rewrite !length_app, !length_le_split; lia
      | apply length_le_split ].
Qed.

(** Encoded entries laid out after [pre] are the entries found there. *)
Lemma Deps_at_encoded deps : forall pre,
  Forall FW_DEPENDENCY_fits deps ->
  Deps_at (mkPointer addr (pre ++ flat_map encode_FW_DEPENDENCY deps ++ rest))
          (Z.of_nat (length pre)) (length deps)
  = Some deps.
Proof.
  induction deps as [ | e deps IH]; intros pre Hfit; [ reflexivity | ].
  inversion Hfit as [ | ? ? He Hrest ]; subst.
  cbn [length Deps_at flat_map]. rewrite <- app_assoc.
  unfold Dep_at at 1. cbn [pointee].
  pose proof (read_bytes_app_mid pre (encode_FW_DEPENDENCY e)
                (flat_map encode_FW_DEPENDENCY deps ++ rest)) as Hrd.
  rewrite length_encode_FW_DEPENDENCY in Hrd. rewrite Hrd.
  cbn [option_map]. rewrite decode_encode_FW_DEPENDENCY by exact He.
  specialize (IH (pre ++ encode_FW_DEPENDENCY e) Hrest).
  rewrite length_app, length_encode_FW_DEPENDENCY in IH.
  rewrite <- app_assoc in IH.
  replace (Z.of_nat (length pre) + sizeof_FW_DEPENDENCY)
    with (Z.of_nat (length pre + 24)) by (unfold sizeof_FW_DEPENDENCY; lia).
  rewrite IH. reflexivity.
Qed.

End Encoding.

(** Every list of entries whose fields fit the layout has a well-formed
    payload: the encoded header announcing them, the encoded entries and
    any image bytes. *)
Lemma well_formed_payload addr FwVersion LowestSupportedVersion deps image :
  addr <> 0 ->
  Forall FW_DEPENDENCY_fits deps ->
  sizeof_FMP_PAYLOAD_HEADER + sizeof_FW_DEPENDENCY * Z.of_nat (length deps) < 2 ^ 32 ->
  well_formed
    (mkPointer addr
       (encode_FMP_PAYLOAD_HEADER
          (sizeof_FMP_PAYLOAD_HEADER + sizeof_FW_DEPENDENCY * Z.of_nat (length deps))
          FwVersion LowestSupportedVersion
        ++ flat_map encode_FW_DEPENDENCY deps ++ image))
    deps.
Proof.
  intros Ha Hfit Hlen. unfold well_formed.
  split; [ apply Z.eqb_neq; exact Ha | ].
  split; [ apply encoded_Signature | ].
  split.
  - apply encoded_HeaderSize.
    unfold sizeof_FMP_PAYLOAD_HEADER, sizeof_FW_DEPENDENCY in *. lia.
  - exact (Deps_at_encoded image addr deps (encode_FMP_PAYLOAD_HEADER _ _ _) Hfit).
Qed.

(** The bounds test of the accessors passes for a buffer that lies in the
    address space and is declared larger than the fixed header. *)
Lemma bounds_test_passes addr FmpPayloadSize :
  0 < addr -> addr + FmpPayloadSize < 2 ^ 64 ->
  sizeof_FMP_PAYLOAD_HEADER < FmpPayloadSize ->
  (UINTN_add addr sizeof_FMP_PAYLOAD_HEADER <? addr)
  || (UINTN_add addr sizeof_FMP_PAYLOAD_HEADER >=? UINTN_add addr FmpPayloadSize)
  = false.
Proof.
  unfold sizeof_FMP_PAYLOAD_HEADER, UINTN_add. intros Ha Hn Hs.
  rewrite !UINTN_wrap_small by lia.
  apply orb_false_intro.
  - apply Z.ltb_ge. lia.
  - rewrite Z.geb_leb. apply Z.leb_gt. lia.
Qed.

Section ErrorsAndOutputs.

Variable Header : Pointer.
Variable FmpPayloadSize : Z.

Lemma GetFmpPayloadHeaderSize_error_keeps_slot slot slot' :
  GetFmpPayloadHeaderSize Header FmpPayloadSize slot
    = Returns (EFI_INVALID_PARAMETER, slot') ->
  slot' = slot.
Proof.
  unfold GetFmpPayloadHeaderSize.
  destruct (is_NULL Header || slot_is_NULL slot); [ intros [= <-]; reflexivity | ].
  destruct (_ || _); [ intros [= <-]; reflexivity | ].
  destruct (load Header offsetof_HeaderSize 4) as [hs | f]; [ | discriminate ].
  cbn [obind]. destruct (hs <? _); [ intros [= <-]; reflexivity | ].
  destruct (load Header offsetof_Signature 4) as [sig | f]; [ | discriminate ].
  cbn [obind]. destruct (negb _); [ intros [= <-]; reflexivity | ].
  intros E. exfalso. apply EFI_SUCCESS_not_EFI_INVALID_PARAMETER. congruence.
Qed.

Lemma GetFmpPayloadHeaderVersion_error_keeps_slot slot slot' :
  GetFmpPayloadHeaderVersion Header FmpPayloadSize slot
    = Returns (EFI_INVALID_PARAMETER, slot') ->
  slot' = slot.
Proof.
  unfold GetFmpPayloadHeaderVersion.
  destruct (is_NULL Header || slot_is_NULL slot); [ intros [= <-]; reflexivity | ].
  destruct (_ || _); [ intros [= <-]; reflexivity | ].
  destruct (load Header offsetof_HeaderSize 4) as [hs | f]; [ | discriminate ].
  cbn [obind]. destruct (hs <? _); [ intros [= <-]; reflexivity | ].
  destruct (load Header offsetof_Signature 4) as [sig | f]; [ | discriminate ].
  cbn [obind]. destruct (negb _); [ intros [= <-]; reflexivity | ].
  destruct (load Header offsetof_FwVersion 4) as [fw | f]; [ | discriminate ].
  cbn [obind]. intros E. exfalso. apply EFI_SUCCESS_not_EFI_INVALID_PARAMETER. congruence.
Qed.

Lemma GetFmpPayloadHeaderLowestSupportedVersion_error_keeps_slot slot slot' :
  GetFmpPayloadHeaderLowestSupportedVersion Header FmpPayloadSize slot
    = Returns (EFI_INVALID_PARAMETER, slot') ->
  slot' = slot.
Proof.
  unfold GetFmpPayloadHeaderLowestSupportedVersion.
  destruct (is_NULL Header || slot_is_NULL slot); [ intros [= <-]; reflexivity | ].
  destruct (_ || _); [ intros [= <-]; reflexivity | ].
  destruct (load Header offsetof_HeaderSize 4) as [hs | f]; [ | discriminate ].
  cbn [obind]. destruct (hs <? _); [ intros [= <-]; reflexivity | ].
  destruct (load Header offsetof_Signature 4) as [sig | f]; [ | discriminate ].
  cbn [obind]. destruct (negb _); [ intros [= <-]; reflexivity | ].
  destruct (load Header offsetof_LowestSupportedVersion 4) as [lsv | f];
    [ | discriminate ].
  cbn [obind]. intros E. exfalso. apply EFI_SUCCESS_not_EFI_INVALID_PARAMETER. congruence.
Qed.

Variable R : Resolver.

Lemma Verify_NULL_Header v :
  is_NULL Header = true ->
  VerifyFmpPayloadDependencies R Header v
  = Returns (mkResult EFI_INVALID_PARAMETER v []).
Proof. intros H. unfold VerifyFmpPayloadDependencies. rewrite H. reflexivity. Qed.

Lemma Verify_bad_signature v sig :
  is_NULL Header = false ->
  load Header offsetof_Signature 4 = Returns sig ->
  sig <> FMP_PAYLOAD_HEADER_SIGNATURE ->
  VerifyFmpPayloadDependencies R Header v
  = Returns (mkResult EFI_INVALID_PARAMETER v []).
Proof.
  intros Hnn Hsig Hne. unfold VerifyFmpPayloadDependencies. rewrite Hnn.
  unfold evaluate, bind, lift. rewrite Hsig.
  apply Z.eqb_neq in Hne. rewrite Hne. reflexivity.
Qed.

End ErrorsAndOutputs.

(** ** The claims of the specification *)

(** C1. VerifyFmpPayloadDependencies has no buffer length to check
    HeaderSize against: the number of entries it walks is
    (HeaderSize - 16) / 24 whatever the caller's buffer holds.  When the
    buffer ends after the fixed header and some whole entries, none of
    them failing, while HeaderSize announces more entries, the call reads
    past the end of the buffer. *)
Theorem C1_entry_reads_past_buffer_end
  (R : Resolver) (Header : Pointer) (VerifiedPtr : OutSlot bool)
  (held : list FW_DEPENDENCY) (announced : nat) :
  is_NULL Header = false ->
  load Header offsetof_Signature 4 = Returns FMP_PAYLOAD_HEADER_SIGNATURE ->
  load Header offsetof_HeaderSize 4
    = Returns (sizeof_FMP_PAYLOAD_HEADER + sizeof_FW_DEPENDENCY * Z.of_nat announced) ->
  Z.of_nat (length (pointee Header))
    = sizeof_FMP_PAYLOAD_HEADER + sizeof_FW_DEPENDENCY * Z.of_nat (length held) ->
  Deps_at Header sizeof_FMP_PAYLOAD_HEADER (length held) = Some held ->
  (forall e, In e held -> dep_fails R e = false) ->
  (length held < announced)%nat ->
  VerifyFmpPayloadDependencies R Header VerifiedPtr = Undefined OutOfBoundsRead.
Proof.
  intros Hnn Hsig Hhs Hlen Hd Hok Hlt.
  unfold VerifyFmpPayloadDependencies. rewrite Hnn.
  rewrite (evaluate_entries R Header announced _ Hsig Hhs).
  unfold bind at 1.
  replace announced with (length held + S (announced - length held - 1))%nat by lia.
  rewrite walk_passes by assumption.
  rewrite walk_step_outside; [ reflexivity | ].
  unfold offsetof_ImageIndex. rewrite Hlen. lia.
Qed.

Lemma C1_entry_reads_past_buffer_end_witness :
  VerifyFmpPayloadDependencies Examples.registry (Examples.payload 40 [] []) (Some false)
  = Undefined OutOfBoundsRead.
Proof.
  apply (C1_entry_reads_past_buffer_end
           Examples.registry (Examples.payload 40 [] []) (Some false) [] 1).
  - reflexivity.
  - reflexivity.
  - reflexivity.
  - reflexivity.
  - reflexivity.
  - intros e [].
  - apply Nat.lt_0_1.
Defined.

(** C2 (the code departs from it). A header whose HeaderSize is below the
    fixed header size is not rejected: with HeaderSize = 8 the call
    returns EFI_SUCCESS and stores TRUE, without a resolver call. *)
Theorem C2_short_HeaderSize_is_accepted :
  VerifyFmpPayloadDependencies Examples.registry (Examples.payload 8 [] []) (Some false)
  = Returns (mkResult EFI_SUCCESS (Some true) []).
Proof. vm_compute. reflexivity. Qed.

(** C3 (the code departs from it). When the last entry is vacuously
    satisfied the call stores TRUE but returns the resolver's error
    status, not EFI_SUCCESS: here one entry without flags for a component
    that is absent. *)
Theorem C3_trailing_vacuous_entry_returns_error :
  VerifyFmpPayloadDependencies Examples.registry
    (Examples.payload 40 [Examples.dep Examples.guid_absent 1 0] []) (Some false)
  = Returns (mkResult EFI_NOT_FOUND (Some true)
               [CallGetFmpAndDescriptor Examples.guid_absent 0]).
Proof. vm_compute. reflexivity. Qed.

(** C4, as the code has it. An accessor that returns
    EFI_INVALID_PARAMETER leaves its output slot as it was.
    VerifyFmpPayloadDependencies leaves Verified as it was when it
    rejects a null header or a wrong signature; when it rejects a
    dependency region whose size is not a multiple of the entry size it
    has stored FALSE in Verified. *)
Theorem C4_structural_errors_and_outputs
  (R : Resolver) (Header : Pointer) (FmpPayloadSize : Z)
  (slot slot' : OutSlot Z) (v : OutSlot bool) :
  (GetFmpPayloadHeaderSize Header FmpPayloadSize slot
     = Returns (EFI_INVALID_PARAMETER, slot') -> slot' = slot)
  /\ (GetFmpPayloadHeaderVersion Header FmpPayloadSize slot
       = Returns (EFI_INVALID_PARAMETER, slot') -> slot' = slot)
  /\ (GetFmpPayloadHeaderLowestSupportedVersion Header FmpPayloadSize slot
       = Returns (EFI_INVALID_PARAMETER, slot') -> slot' = slot)
  /\ (is_NULL Header = true ->
      VerifyFmpPayloadDependencies R Header v
      = Returns (mkResult EFI_INVALID_PARAMETER v []))
  /\ (forall sig,
        is_NULL Header = false ->
        load Header offsetof_Signature 4 = Returns sig ->
        sig <> FMP_PAYLOAD_HEADER_SIGNATURE ->
        VerifyFmpPayloadDependencies R Header v
        = Returns (mkResult EFI_INVALID_PARAMETER v []))
  /\ (forall HeaderSize old,
        is_NULL Header = false ->
        load Header offsetof_Signature 4 = Returns FMP_PAYLOAD_HEADER_SIGNATURE ->
        load Header offsetof_HeaderSize 4 = Returns HeaderSize ->
        0 < HeaderSize - sizeof_FMP_PAYLOAD_HEADER ->
        (HeaderSize - sizeof_FMP_PAYLOAD_HEADER) mod sizeof_FW_DEPENDENCY <> 0 ->
        v = Some old ->
        VerifyFmpPayloadDependencies R Header v
        = Returns (mkResult EFI_INVALID_PARAMETER (Some false) [])).
Proof.
  split; [ apply GetFmpPayloadHeaderSize_error_keeps_slot | ].
  split; [ apply GetFmpPayloadHeaderVersion_error_keeps_slot | ].
  split; [ apply GetFmpPayloadHeaderLowestSupportedVersion_error_keeps_slot | ].
  split; [ apply Verify_NULL_Header | ].
  split; [ intros sig; apply Verify_bad_signature | ].
  intros hs old Hnn Hsig Hhs Hpos Hrem ->.
  exact (Verify_misaligned R Header Hnn Hsig hs old Hhs Hpos Hrem).
Qed.

(** C4 as the claim has it fails: the size check of the dependency
    region returns EFI_INVALID_PARAMETER after FALSE was stored over the
    TRUE that Verified held. *)
Lemma C4_counterexample :
  ~ (forall (R : Resolver) (Header : Pointer) (v : OutSlot bool) (r : Result),
       VerifyFmpPayloadDependencies R Header v = Returns r ->
       ReturnStatus r = EFI_INVALID_PARAMETER ->
       VerifiedOut r = v).
Proof.
  intros H.
  assert (E : VerifyFmpPayloadDependencies Examples.registry
                (Examples.payload 41 [Examples.dep Examples.guid_A 1 0] [Byte.x00])
                (Some true)
              = Returns (mkResult EFI_INVALID_PARAMETER (Some false) []))
    by (vm_compute; reflexivity).
  specialize (H _ _ _ _ E eq_refl). discriminate H.
Qed.

Lemma C4_structural_errors_and_outputs_witness :
  (* an accessor called on a payload declared too small *)
  (GetFmpPayloadHeaderSize (Examples.payload 16 [] []) 16 (Some 7)
     = Returns (EFI_INVALID_PARAMETER, Some 7)
   /\ @eq (OutSlot Z) (Some 7) (Some 7))
  (* a null header *)
  /\ VerifyFmpPayloadDependencies Examples.registry (mkPointer 0 []) (Some true)
     = Returns (mkResult EFI_INVALID_PARAMETER (Some true) [])
  (* a wrong signature *)
  /\ VerifyFmpPayloadDependencies Examples.registry
       (mkPointer 4096 (le_split 16 0)) (Some true)
     = Returns (mkResult EFI_INVALID_PARAMETER (Some true) [])
  (* a dependency region of 25 bytes *)
  /\ VerifyFmpPayloadDependencies Examples.registry
       (Examples.payload 41 [Examples.dep Examples.guid_A 1 0] [Byte.x00]) (Some true)
     = Returns (mkResult EFI_INVALID_PARAMETER (Some false) []).
Proof.
  split; [ | split; [ | split ] ].
  - split; [ reflexivity | ].
    destruct (C4_structural_errors_and_outputs Examples.registry
                (Examples.payload 16 [] []) 16 (Some 7) (Some 7) None)
      as (Hsize & _).
    apply Hsize. reflexivity.
  - destruct (C4_structural_errors_and_outputs Examples.registry
                (mkPointer 0 []) 0 None None (Some true))
      as (_ & _ & _ & Hnull & _).
    apply Hnull. reflexivity.
  - destruct (C4_structural_errors_and_outputs Examples.registry
                (mkPointer 4096 (le_split 16 0)) 0 None None (Some true))
      as (_ & _ & _ & _ & Hsig & _).
    apply (Hsig 0).
    + reflexivity.
    + reflexivity.
    + vm_compute. discriminate.
  - destruct (C4_structural_errors_and_outputs Examples.registry
                (Examples.payload 41 [Examples.dep Examples.guid_A 1 0] [Byte.x00])
                0 None None (Some true))
      as (_ & _ & _ & _ & _ & Hmis).
    apply (Hmis 41 true).
    + reflexivity.
    + reflexivity.
    + reflexivity.
    + reflexivity.
    + vm_compute. discriminate.
    + reflexivity.
Defined.

(** C5. With a valid signature and a dependency region whose size
    HeaderSize - 16 is positive and not a multiple of 24, the call
    returns EFI_INVALID_PARAMETER with FALSE stored, whatever the rest of
    the buffer holds and without any call to the resolver. *)
Theorem C5_misaligned_dependency_region
  (R : Resolver) (Header : Pointer) (HeaderSize : Z) (old : bool) :
  is_NULL Header = false ->
  load Header offsetof_Signature 4 = Returns FMP_PAYLOAD_HEADER_SIGNATURE ->
  load Header offsetof_HeaderSize 4 = Returns HeaderSize ->
  0 < HeaderSize - sizeof_FMP_PAYLOAD_HEADER ->
  (HeaderSize - sizeof_FMP_PAYLOAD_HEADER) mod sizeof_FW_DEPENDENCY <> 0 ->
  VerifyFmpPayloadDependencies R Header (Some old)
  = Returns (mkResult EFI_INVALID_PARAMETER (Some false) []).
Proof.
  intros Hnn Hsig Hhs Hpos Hrem.
  exact (Verify_misaligned R Header Hnn Hsig HeaderSize old Hhs Hpos Hrem).
Qed.

Lemma C5_misaligned_dependency_region_witness :
  VerifyFmpPayloadDependencies Examples.registry
    (Examples.payload 41 [Examples.dep Examples.guid_A 1 0] [Byte.x00]) (Some true)
  = Returns (mkResult EFI_INVALID_PARAMETER (Some false) []).
Proof.
  apply (C5_misaligned_dependency_region Examples.registry _ 41 true).
  - reflexivity.
  - reflexivity.
  - reflexivity.
  - reflexivity.
  - vm_compute. discriminate.
Defined.

(** C6. In a well-formed payload that contains an entry with REQUIRED
    set whose component the resolver does not find, the call stores
    FALSE and returns EFI_SUCCESS. *)
Theorem C6_required_and_absent
  (R : Resolver) (Header : Pointer) (deps : list FW_DEPENDENCY) (old : bool)
  (e : FW_DEPENDENCY) (StatusCode : Z) (clears : bool) :
  well_formed Header deps ->
  In e deps ->
  has_REQUIRED e = true ->
  resolve R e = NotFound StatusCode clears ->
  exists r,
    VerifyFmpPayloadDependencies R Header (Some old) = Returns r
    /\ ReturnStatus r = EFI_SUCCESS
    /\ VerifiedOut r = Some false.
Proof.
  intros Hwf Hin Hreq Hres.
  assert (Hf : dep_fails R e = true) by (unfold dep_fails; rewrite Hres; exact Hreq).
  destruct (first_failure R deps) as (pre & f & post & -> & Hpre & Hfail); [ eauto | ].
  eexists. split.
  - exact (Verify_first_failure R Header pre f post old Hwf Hpre Hfail).
  - split; reflexivity.
Qed.

Lemma C6_required_and_absent_witness :
  exists r,
    VerifyFmpPayloadDependencies Examples.registry
      (Examples.payload 40 [Examples.dep Examples.guid_absent 1 1] []) (Some true)
    = Returns r
    /\ ReturnStatus r = EFI_SUCCESS
    /\ VerifiedOut r = Some false.
Proof.
  apply (C6_required_and_absent Examples.registry _
           [Examples.dep Examples.guid_absent 1 1] true
           (Examples.dep Examples.guid_absent 1 1) 14 false).
  - repeat split; reflexivity.
  - left. reflexivity.
  - reflexivity.
  - reflexivity.
Defined.

(** C7. In a well-formed payload in which some entry fails, the walk
    stops at the first failing entry: the resolver was called for the
    entries up to and including that one and for no later entry, FALSE
    is stored and the status is EFI_SUCCESS. *)
Theorem C7_short_circuit_on_first_failure
  (R : Resolver) (Header : Pointer) (deps : list FW_DEPENDENCY) (old : bool) :
  well_formed Header deps ->
  (exists e, In e deps /\ dep_fails R e = true) ->
  exists pre e post r,
    deps = pre ++ e :: post
    /\ (forall x, In x pre -> dep_fails R x = false)
    /\ dep_fails R e = true
    /\ VerifyFmpPayloadDependencies R Header (Some old) = Returns r
    /\ resolver_calls (Calls r) = map call_of (pre ++ [e])
    /\ VerifiedOut r = Some false
    /\ ReturnStatus r = EFI_SUCCESS.
Proof.
  intros Hwf Hex.
  destruct (first_failure R deps Hex) as (pre & e & post & -> & Hpre & Hfail).
  exists pre, e, post. eexists.
  split; [ reflexivity | ]. split; [ exact Hpre | ]. split; [ exact Hfail | ].
  split; [ exact (Verify_first_failure R Header pre e post old Hwf Hpre Hfail) | ].
  cbn [Calls VerifiedOut ReturnStatus]. split; [ | split; reflexivity ].
  apply resolver_calls_of_walk.
  destruct (FmpDesc _) as [d | ].
  - intros ev [<- | []]. reflexivity.
  - intros ev [].
Qed.

Lemma C7_short_circuit_on_first_failure_witness :
  exists pre e post r,
    [Examples.dep Examples.guid_A 6 0; Examples.dep Examples.guid_B 6 0]
      = pre ++ e :: post
    /\ (forall x, In x pre -> dep_fails Examples.registry x = false)
    /\ dep_fails Examples.registry e = true
    /\ VerifyFmpPayloadDependencies Examples.registry
         (Examples.payload 64
            [Examples.dep Examples.guid_A 6 0; Examples.dep Examples.guid_B 6 0] [])
         (Some true)
       = Returns r
    /\ resolver_calls (Calls r) = map call_of (pre ++ [e])
    /\ VerifiedOut r = Some false
    /\ ReturnStatus r = EFI_SUCCESS.
Proof.
  apply (C7_short_circuit_on_first_failure Examples.registry
           (Examples.payload 64
              [Examples.dep Examples.guid_A 6 0; Examples.dep Examples.guid_B 6 0] [])
           [Examples.dep Examples.guid_A 6 0; Examples.dep Examples.guid_B 6 0] true).
  - repeat split; reflexivity.
  - exists (Examples.dep Examples.guid_A 6 0). split; [ left | ]; reflexivity.
Defined.

(** C8 (the code departs from it). Verified is not checked for null: on
    a valid header without dependencies the call writes TRUE through the
    null pointer instead of returning EFI_INVALID_PARAMETER. *)
Theorem C8_null_Verified_is_written_through :
  VerifyFmpPayloadDependencies Examples.registry (Examples.payload 16 [] []) None
  = Undefined NullPointerWrite.
Proof. vm_compute. reflexivity. Qed.

(** C9. Round trip: a buffer that starts with the encoded header of size
    S (at least 16) and version V, passed with a declared payload size
    above the fixed header size, gives S back through
    GetFmpPayloadHeaderSize and V through GetFmpPayloadHeaderVersion. *)
Theorem C9_accessor_round_trip
  (S V L : Z) (image : list byte) (addr FmpPayloadSize : Z) (oldSize oldVersion : Z) :
  sizeof_FMP_PAYLOAD_HEADER <= S < 2 ^ 32 ->
  0 <= V < 2 ^ 32 ->
  0 < addr ->
  addr + FmpPayloadSize < 2 ^ 64 ->
  sizeof_FMP_PAYLOAD_HEADER < FmpPayloadSize ->
  GetFmpPayloadHeaderSize
      (mkPointer addr (encode_FMP_PAYLOAD_HEADER S V L ++ image))
      FmpPayloadSize (Some oldSize)
    = Returns (EFI_SUCCESS, Some S)
  /\ GetFmpPayloadHeaderVersion
      (mkPointer addr (encode_FMP_PAYLOAD_HEADER S V L ++ image))
      FmpPayloadSize (Some oldVersion)
    = Returns (EFI_SUCCESS, Some V).
Proof.
  intros HS HV Ha Hn Hsz.
  set (Header := mkPointer addr (encode_FMP_PAYLOAD_HEADER S V L ++ image)).
  assert (Hnn : is_NULL Header = false) by (apply Z.eqb_neq; cbn [address Header]; lia).
  pose proof (bounds_test_passes addr FmpPayloadSize Ha Hn Hsz) as Hb.
  pose proof (encoded_Signature S V L image addr) as Hsig.
  pose proof (encoded_HeaderSize S V L image addr) as Hhs.
  pose proof (encoded_FwVersion S V L image addr HV) as Hfw.
  fold Header in Hsig, Hhs, Hfw.
  unfold sizeof_FMP_PAYLOAD_HEADER in HS.
  assert (HS' : 0 <= S < 2 ^ 32) by lia. specialize (Hhs HS').
  assert (Hge : (S <? sizeof_FMP_PAYLOAD_HEADER) = false)
    by (apply Z.ltb_ge; unfold sizeof_FMP_PAYLOAD_HEADER; lia).
  unfold GetFmpPayloadHeaderSize, GetFmpPayloadHeaderVersion.
  rewrite Hnn. cbn [slot_is_NULL orb address Header].
  rewrite Hb.
  fold Header. rewrite Hhs, Hsig, Hfw. cbn [obind]. rewrite Hge, Z.eqb_refl.
  cbn [negb]. split; reflexivity.
Qed.

Lemma C9_accessor_round_trip_witness :
  GetFmpPayloadHeaderSize
      (mkPointer 4096 (encode_FMP_PAYLOAD_HEADER 16 258 2 ++ [Byte.xff]))
      17 (Some 0)
    = Returns (EFI_SUCCESS, Some 16)
  /\ GetFmpPayloadHeaderVersion
      (mkPointer 4096 (encode_FMP_PAYLOAD_HEADER 16 258 2 ++ [Byte.xff]))
      17 (Some 0)
    = Returns (EFI_SUCCESS, Some 258).
Proof.
  apply (C9_accessor_round_trip 16 258 2 [Byte.xff] 4096 17 0 0).
  - unfold sizeof_FMP_PAYLOAD_HEADER. lia.
  - lia.
  - lia.
  - lia.
  - unfold sizeof_FMP_PAYLOAD_HEADER. lia.
Defined.

(** The declared payload size has to exceed the fixed header: a payload
    that is the fixed header and nothing more is rejected. *)
Lemma header_only_payload_rejected :
  GetFmpPayloadHeaderSize
    (mkPointer 4096 (encode_FMP_PAYLOAD_HEADER 16 258 2)) 16 (Some 0)
  = Returns (EFI_INVALID_PARAMETER, Some 0).
Proof. vm_compute. reflexivity. Qed.

(** C10 (the code departs from it). The only FreePool is the one at
    EXIT: with two entries that both resolve and pass, two descriptors
    are handed out and one is released. *)
Theorem C10_one_release_for_two_descriptors :
  exists r,
    VerifyFmpPayloadDependencies Examples.registry
      (Examples.payload 64
         [Examples.dep Examples.guid_A 5 0; Examples.dep Examples.guid_B 6 0] [])
      (Some false)
    = Returns r
    /\ ReturnStatus r = EFI_SUCCESS
    /\ VerifiedOut r = Some true
    /\ Calls r = [CallGetFmpAndDescriptor Examples.guid_A 0;
                  CallGetFmpAndDescriptor Examples.guid_B 0;
                  CallFreePool (mkDescriptor 7)]
    /\ acquisitions Examples.registry (Calls r) = 2%nat
    /\ releases (Calls r) = 1%nat.
Proof. eexists. repeat split; vm_compute; reflexivity. Qed.

(** * Further properties of the code *)

(** ** Further properties of the accessors *)

Section BoundsTest.

Variables addr FmpPayloadSize : Z.
Hypothesis addr_range : 0 <= addr < 2 ^ 64.
Hypothesis size_range : 0 <= FmpPayloadSize < 2 ^ 64.

(** The bounds test lets a call through exactly when the fixed header and
    the declared payload both end inside the address space and the payload
    is declared larger than the fixed header. *)
Lemma bounds_test_false_iff :
  (UINTN_add addr sizeof_FMP_PAYLOAD_HEADER <? addr)
  || (UINTN_add addr sizeof_FMP_PAYLOAD_HEADER >=? UINTN_add addr FmpPayloadSize)
  = false
  <-> sizeof_FMP_PAYLOAD_HEADER < FmpPayloadSize /\ addr + FmpPayloadSize < 2 ^ 64.
Proof.
  unfold sizeof_FMP_PAYLOAD_HEADER, UINTN_add, UINTN_wrap, UINTN_BITS.
  rewrite orb_false_iff, Z.ltb_ge, Z.geb_leb, Z.leb_gt.
  destruct (Z_lt_le_dec (addr + 16) (2 ^ 64)) as [H16 | H16];
    destruct (Z_lt_le_dec (addr + FmpPayloadSize) (2 ^ 64)) as [Hn | Hn].
  - rewrite !Z.mod_small by lia. lia.
  - rewrite (Z.mod_small (addr + 16)) by lia.
    replace ((addr + FmpPayloadSize) mod 2 ^ 64) with (addr + FmpPayloadSize - 2 ^ 64)
      by (apply Z.mod_unique with (q := 1); lia).
    lia.
  - replace ((addr + 16) mod 2 ^ 64) with (addr + 16 - 2 ^ 64)
      by (apply Z.mod_unique with (q := 1); lia).
    rewrite (Z.mod_small (addr + FmpPayloadSize)) by lia. lia.
  - replace ((addr + 16) mod 2 ^ 64) with (addr + 16 - 2 ^ 64)
      by (apply Z.mod_unique with (q := 1); lia).
    lia.
Qed.

End BoundsTest.

Lemma EFI_INVALID_PARAMETER_not_EFI_SUCCESS : EFI_INVALID_PARAMETER <> EFI_SUCCESS.
Proof. vm_compute. discriminate. Qed.

Section AccessorResults.

Variable Header : Pointer.
Variable FmpPayloadSize : Z.

(** The checks shared by the three accessors, as one condition on the
    call: pointers not null, bounds test passed, [HeaderSize] at least the
    fixed header size, signature as expected. *)
Lemma GetFmpPayloadHeaderSize_success_iff (slot out : OutSlot Z) :
  GetFmpPayloadHeaderSize Header FmpPayloadSize slot = Returns (EFI_SUCCESS, out)
  <-> is_NULL Header = false
      /\ slot_is_NULL slot = false
      /\ (UINTN_add (address Header) sizeof_FMP_PAYLOAD_HEADER <? address Header)
         || (UINTN_add (address Header) sizeof_FMP_PAYLOAD_HEADER
               >=? UINTN_add (address Header) FmpPayloadSize) = false
      /\ exists HeaderSize,
           load Header offsetof_HeaderSize 4 = Returns HeaderSize
           /\ sizeof_FMP_PAYLOAD_HEADER <= HeaderSize
           /\ load Header offsetof_Signature 4 = Returns FMP_PAYLOAD_HEADER_SIGNATURE
           /\ out = Some HeaderSize.
Proof.
  unfold GetFmpPayloadHeaderSize. split.
  - destruct (is_NULL Header); cbn [orb];
      [ intros E; exfalso; apply EFI_INVALID_PARAMETER_not_EFI_SUCCESS; congruence | ].
    destruct (slot_is_NULL slot);
      [ intros E; exfalso; apply EFI_INVALID_PARAMETER_not_EFI_SUCCESS; congruence | ].
    destruct (_ || _);
      [ intros E; exfalso; apply EFI_INVALID_PARAMETER_not_EFI_SUCCESS; congruence | ].
    destruct (load Header offsetof_HeaderSize 4) as [hs | f]; [ | discriminate ].
    cbn [obind]. destruct (Z.ltb_spec hs sizeof_FMP_PAYLOAD_HEADER);
      [ intros E; exfalso; apply EFI_INVALID_PARAMETER_not_EFI_SUCCESS; congruence | ].
    destruct (load Header offsetof_Signature 4) as [sig | f]; [ | discriminate ].
    cbn [obind]. destruct (Z.eqb_spec sig FMP_PAYLOAD_HEADER_SIGNATURE); cbn [negb];
      [ | intros E; exfalso; apply EFI_INVALID_PARAMETER_not_EFI_SUCCESS; congruence ].
    intros [= <-]. subst sig. repeat split; try reflexivity.
    exists hs. repeat split; auto.
  - intros (Hn & Hs & Hb & hs & Hhs & Hge & Hsig & ->).
    rewrite Hn, Hs. cbn [orb]. rewrite Hb, Hhs. cbn [obind].
    destruct (Z.ltb_spec hs sizeof_FMP_PAYLOAD_HEADER); [ lia | ].
    rewrite Hsig. cbn [obind]. rewrite Z.eqb_refl. reflexivity.
Qed.

(** The header-size accessor never answers with another status than
    these two. *)
Lemma accessor_status_cases (st : EFI_STATUS) (slot out : OutSlot Z) :
  GetFmpPayloadHeaderSize Header FmpPayloadSize slot = Returns (st, out) ->
  st = EFI_SUCCESS \/ (st = EFI_INVALID_PARAMETER /\ out = slot).
Proof.
  unfold GetFmpPayloadHeaderSize.
  destruct (is_NULL Header || slot_is_NULL slot); [ intros [= <- <-]; auto | ].
  destruct (_ || _); [ intros [= <- <-]; auto | ].
  destruct (load Header offsetof_HeaderSize 4) as [hs | f]; [ | discriminate ].
  cbn [obind]. destruct (hs <? _); [ intros [= <- <-]; auto | ].
  destruct (load Header offsetof_Signature 4) as [sig | f]; [ | discriminate ].
  cbn [obind]. destruct (negb _); intros [= <- <-]; auto.
Qed.

End AccessorResults.

Lemma load_within (p : Pointer) (off : Z) (n : nat) :
  0 <= off -> off + Z.of_nat n <= Z.of_nat (length (pointee p)) ->
  exists v, load p off n = Returns v.
Proof.
  intros H0 H1. unfold load. rewrite read_bytes_Some by assumption. eauto.
Qed.

Section AccessorsTogether.

Variable Header : Pointer.
Variable FmpPayloadSize : Z.

(** A call that fails the bounds test is rejected by each accessor before
    any byte of the buffer is read. *)
Lemma accessors_reject_on_bounds (Size Version Lsv : OutSlot Z) :
  (UINTN_add (address Header) sizeof_FMP_PAYLOAD_HEADER <? address Header)
  || (UINTN_add (address Header) sizeof_FMP_PAYLOAD_HEADER
        >=? UINTN_add (address Header) FmpPayloadSize) = true ->
  GetFmpPayloadHeaderSize Header FmpPayloadSize Size
    = Returns (EFI_INVALID_PARAMETER, Size)
  /\ GetFmpPayloadHeaderVersion Header FmpPayloadSize Version
    = Returns (EFI_INVALID_PARAMETER, Version)
  /\ GetFmpPayloadHeaderLowestSupportedVersion Header FmpPayloadSize Lsv
    = Returns (EFI_INVALID_PARAMETER, Lsv).
Proof.
  intros Hb.
  unfold GetFmpPayloadHeaderSize, GetFmpPayloadHeaderVersion,
    GetFmpPayloadHeaderLowestSupportedVersion.
  rewrite Hb.
  repeat split; destruct (is_NULL Header || _); reflexivity.
Qed.

(** With sixteen readable bytes behind [Header] the three accessors run
    the same checks to the same status. *)
Lemma accessors_same_status (Size Version Lsv : OutSlot Z) :
  slot_is_NULL Size = slot_is_NULL Version ->
  slot_is_NULL Version = slot_is_NULL Lsv ->
  sizeof_FMP_PAYLOAD_HEADER <= Z.of_nat (length (pointee Header)) ->
  exists st oSize oVersion oLsv,
    GetFmpPayloadHeaderSize Header FmpPayloadSize Size = Returns (st, oSize)
    /\ GetFmpPayloadHeaderVersion Header FmpPayloadSize Version = Returns (st, oVersion)
    /\ GetFmpPayloadHeaderLowestSupportedVersion Header FmpPayloadSize Lsv
       = Returns (st, oLsv).
Proof.
  unfold sizeof_FMP_PAYLOAD_HEADER. intros HSV HVL Hlen.
  unfold GetFmpPayloadHeaderSize, GetFmpPayloadHeaderVersion,
    GetFmpPayloadHeaderLowestSupportedVersion.
  rewrite HSV, HVL.
  destruct (is_NULL Header || slot_is_NULL Lsv); [ do 4 eexists; repeat split; reflexivity | ].
  destruct (_ || _); [ do 4 eexists; repeat split; reflexivity | ].
  destruct (load_within Header offsetof_HeaderSize 4) as [hs ->];
    [ unfold offsetof_HeaderSize; lia | unfold offsetof_HeaderSize; lia | ].
  cbn [obind]. destruct (hs <? _); [ do 4 eexists; repeat split; reflexivity | ].
  destruct (load_within Header offsetof_Signature 4) as [sig ->];
    [ unfold offsetof_Signature; lia | unfold offsetof_Signature; lia | ].
  cbn [obind]. destruct (negb _); [ do 4 eexists; repeat split; reflexivity | ].
  destruct (load_within Header offsetof_FwVersion 4) as [fw ->];
    [ unfold offsetof_FwVersion; lia | unfold offsetof_FwVersion; lia | ].
  destruct (load_within Header offsetof_LowestSupportedVersion 4) as [lsv ->];
    [ unfold offsetof_LowestSupportedVersion; lia
    | unfold offsetof_LowestSupportedVersion; lia | ].
  cbn [obind]. do 4 eexists; repeat split; reflexivity.
Qed.

End AccessorsTogether.

(** Reading back the last field of the encoded header. *)
Lemma encoded_LowestSupportedVersion HeaderSize FwVersion LowestSupportedVersion rest addr :
  0 <= LowestSupportedVersion < 2 ^ 32 ->
  load (mkPointer addr
          (encode_FMP_PAYLOAD_HEADER HeaderSize FwVersion LowestSupportedVersion ++ rest))
       offsetof_LowestSupportedVersion 4
  = Returns LowestSupportedVersion.
Proof.
  intros H. unfold encode_FMP_PAYLOAD_HEADER. rewrite <- !app_assoc.
  rewrite (app_assoc (le_split 4 FMP_PAYLOAD_HEADER_SIGNATURE)).
  rewrite (app_assoc (le_split 4 FMP_PAYLOAD_HEADER_SIGNATURE ++ _)).
  pose proof (load_field addr
                ((le_split 4 FMP_PAYLOAD_HEADER_SIGNATURE ++ le_split 4 HeaderSize)
                 ++ le_split 4 FwVersion)
                LowestSupportedVersion rest H) as E.
  rewrite !length_app, !length_le_split in E. exact E.
Qed.

(** X1. Each accessor rejects a payload declared no larger than the
    fixed header (FmpPayloadSize at most 16), whatever the buffer holds,
    and leaves its output slot as it was. *)
Theorem X1_accessors_reject_payload_within_fixed_header
  (Header : Pointer) (FmpPayloadSize : Z) (Size Version Lsv : OutSlot Z) :
  0 <= address Header < 2 ^ 64 ->
  0 <= FmpPayloadSize <= sizeof_FMP_PAYLOAD_HEADER ->
  GetFmpPayloadHeaderSize Header FmpPayloadSize Size
    = Returns (EFI_INVALID_PARAMETER, Size)
  /\ GetFmpPayloadHeaderVersion Header FmpPayloadSize Version
    = Returns (EFI_INVALID_PARAMETER, Version)
  /\ GetFmpPayloadHeaderLowestSupportedVersion Header FmpPayloadSize Lsv
    = Returns (EFI_INVALID_PARAMETER, Lsv).
Proof.
  intros Ha Hn. apply accessors_reject_on_bounds.
  apply not_false_iff_true. intros Hb.
  apply bounds_test_false_iff in Hb; unfold sizeof_FMP_PAYLOAD_HEADER in *; lia.
Qed.

Lemma X1_accessors_reject_payload_within_fixed_header_witness :
  GetFmpPayloadHeaderSize (Examples.payload 16 [] []) 16 (Some 1)
    = Returns (EFI_INVALID_PARAMETER, Some 1)
  /\ GetFmpPayloadHeaderVersion (Examples.payload 16 [] []) 16 (Some 2)
    = Returns (EFI_INVALID_PARAMETER, Some 2)
  /\ GetFmpPayloadHeaderLowestSupportedVersion (Examples.payload 16 [] []) 16 (Some 3)
    = Returns (EFI_INVALID_PARAMETER, Some 3).
Proof.
  apply (X1_accessors_reject_payload_within_fixed_header
           (Examples.payload 16 [] []) 16 (Some 1) (Some 2) (Some 3)).
  - cbn. lia.
  - unfold sizeof_FMP_PAYLOAD_HEADER. lia.
Defined.

(** X2. Each accessor rejects a payload whose declared end wraps around
    the 64-bit address space (address + FmpPayloadSize reaches 2^64), and
    leaves its output slot as it was. *)
Theorem X2_accessors_reject_wrapping_payload
  (Header : Pointer) (FmpPayloadSize : Z) (Size Version Lsv : OutSlot Z) :
  0 <= address Header < 2 ^ 64 ->
  0 <= FmpPayloadSize < 2 ^ 64 ->
  2 ^ 64 <= address Header + FmpPayloadSize ->
  GetFmpPayloadHeaderSize Header FmpPayloadSize Size
    = Returns (EFI_INVALID_PARAMETER, Size)
  /\ GetFmpPayloadHeaderVersion Header FmpPayloadSize Version
    = Returns (EFI_INVALID_PARAMETER, Version)
  /\ GetFmpPayloadHeaderLowestSupportedVersion Header FmpPayloadSize Lsv
    = Returns (EFI_INVALID_PARAMETER, Lsv).
Proof.
  intros Ha Hn Hw. apply accessors_reject_on_bounds.
  apply not_false_iff_true. intros Hb.
  apply bounds_test_false_iff in Hb; lia.
Qed.

Lemma X2_accessors_reject_wrapping_payload_witness :
  GetFmpPayloadHeaderSize
      (mkPointer (2 ^ 64 - 32) (encode_FMP_PAYLOAD_HEADER 16 3 2)) 32 (Some 1)
    = Returns (EFI_INVALID_PARAMETER, Some 1)
  /\ GetFmpPayloadHeaderVersion
      (mkPointer (2 ^ 64 - 32) (encode_FMP_PAYLOAD_HEADER 16 3 2)) 32 (Some 2)
    = Returns (EFI_INVALID_PARAMETER, Some 2)
  /\ GetFmpPayloadHeaderLowestSupportedVersion
      (mkPointer (2 ^ 64 - 32) (encode_FMP_PAYLOAD_HEADER 16 3 2)) 32 (Some 3)
    = Returns (EFI_INVALID_PARAMETER, Some 3).
Proof.
  apply (X2_accessors_reject_wrapping_payload
           (mkPointer (2 ^ 64 - 32) (encode_FMP_PAYLOAD_HEADER 16 3 2)) 32
           (Some 1) (Some 2) (Some 3)).
  - cbn [address]. lia.
  - lia.
  - cbn [address]. lia.
Defined.

(** X3. GetFmpPayloadHeaderSize returns EFI_SUCCESS exactly when both
    pointers are non-null, the declared payload is larger than the fixed
    header and ends inside the address space, HeaderSize is at least 16
    and the signature matches; the value written is then HeaderSize.
    HeaderSize is not compared with FmpPayloadSize. *)
Theorem X3_GetFmpPayloadHeaderSize_success_iff
  (Header : Pointer) (FmpPayloadSize : Z) (Size out : OutSlot Z) :
  0 <= address Header < 2 ^ 64 ->
  0 <= FmpPayloadSize < 2 ^ 64 ->
  (GetFmpPayloadHeaderSize Header FmpPayloadSize Size = Returns (EFI_SUCCESS, out)
   <-> address Header <> 0
       /\ Size <> None
       /\ sizeof_FMP_PAYLOAD_HEADER < FmpPayloadSize
       /\ address Header + FmpPayloadSize < 2 ^ 64
       /\ exists HeaderSize,
            load Header offsetof_HeaderSize 4 = Returns HeaderSize
            /\ sizeof_FMP_PAYLOAD_HEADER <= HeaderSize
            /\ load Header offsetof_Signature 4 = Returns FMP_PAYLOAD_HEADER_SIGNATURE
            /\ out = Some HeaderSize).
Proof.
  intros Ha Hn. rewrite GetFmpPayloadHeaderSize_success_iff.
  rewrite (bounds_test_false_iff _ _ Ha Hn).
  unfold is_NULL. rewrite Z.eqb_neq.
  assert (HS : slot_is_NULL Size = false <-> Size <> None)
    by (destruct Size; cbn; split; congruence).
  rewrite HS. tauto.
Qed.

Lemma X3_GetFmpPayloadHeaderSize_success_iff_witness :
  GetFmpPayloadHeaderSize (Examples.payload 16 [] [Byte.x00]) 17 (Some 0)
    = Returns (EFI_SUCCESS, Some 16)
  <-> address (Examples.payload 16 [] [Byte.x00]) <> 0
      /\ Some 0 <> None
      /\ sizeof_FMP_PAYLOAD_HEADER < 17
      /\ address (Examples.payload 16 [] [Byte.x00]) + 17 < 2 ^ 64
      /\ exists HeaderSize,
           load (Examples.payload 16 [] [Byte.x00]) offsetof_HeaderSize 4
             = Returns HeaderSize
           /\ sizeof_FMP_PAYLOAD_HEADER <= HeaderSize
           /\ load (Examples.payload 16 [] [Byte.x00]) offsetof_Signature 4
              = Returns FMP_PAYLOAD_HEADER_SIGNATURE
           /\ Some 16 = Some HeaderSize.
Proof.
  apply (X3_GetFmpPayloadHeaderSize_success_iff
           (Examples.payload 16 [] [Byte.x00]) 17 (Some 0) (Some 16)).
  - cbn. lia.
  - lia.
Defined.

(** X4. On a buffer with at least sixteen bytes the three accessors end
    with the same status: they accept and reject the same calls. *)
Theorem X4_accessors_agree_on_status
  (Header : Pointer) (FmpPayloadSize : Z) (oldSize oldVersion oldLsv : Z) :
  sizeof_FMP_PAYLOAD_HEADER <= Z.of_nat (length (pointee Header)) ->
  exists st oSize oVersion oLsv,
    GetFmpPayloadHeaderSize Header FmpPayloadSize (Some oldSize)
      = Returns (st, oSize)
    /\ GetFmpPayloadHeaderVersion Header FmpPayloadSize (Some oldVersion)
      = Returns (st, oVersion)
    /\ GetFmpPayloadHeaderLowestSupportedVersion Header FmpPayloadSize (Some oldLsv)
      = Returns (st, oLsv).
Proof.
  intros Hlen.
  exact (accessors_same_status Header FmpPayloadSize
           (Some oldSize) (Some oldVersion) (Some oldLsv) eq_refl eq_refl Hlen).
Qed.

Lemma X4_accessors_agree_on_status_witness :
  exists st oSize oVersion oLsv,
    GetFmpPayloadHeaderSize (Examples.payload 16 [] [Byte.x00]) 17 (Some 0)
      = Returns (st, oSize)
    /\ GetFmpPayloadHeaderVersion (Examples.payload 16 [] [Byte.x00]) 17 (Some 0)
      = Returns (st, oVersion)
    /\ GetFmpPayloadHeaderLowestSupportedVersion
         (Examples.payload 16 [] [Byte.x00]) 17 (Some 0)
      = Returns (st, oLsv).
Proof.
  apply (X4_accessors_agree_on_status (Examples.payload 16 [] [Byte.x00]) 17 0 0 0).
  apply Z.leb_le. vm_compute. reflexivity.
Defined.

Section AccessorsReturn.

Variable Header : Pointer.
Variable FmpPayloadSize : Z.
Hypothesis sixteen_bytes :
  sizeof_FMP_PAYLOAD_HEADER <= Z.of_nat (length (pointee Header)).

Lemma GetFmpPayloadHeaderSize_returns slot :
  exists r, GetFmpPayloadHeaderSize Header FmpPayloadSize slot = Returns r.
Proof.
  unfold sizeof_FMP_PAYLOAD_HEADER in sixteen_bytes.
  unfold GetFmpPayloadHeaderSize.
  destruct (is_NULL Header || slot_is_NULL slot); [ eauto | ].
  destruct (_ || _); [ eauto | ].
  destruct (load_within Header offsetof_HeaderSize 4) as [hs ->];
    [ unfold offsetof_HeaderSize; lia | unfold offsetof_HeaderSize; lia | ].
  cbn [obind]. destruct (hs <? _); [ eauto | ].
  destruct (load_within Header offsetof_Signature 4) as [sig ->];
    [ unfold offsetof_Signature; lia | unfold offsetof_Signature; lia | ].
  cbn [obind]. destruct (negb _); eauto.
Qed.

Lemma GetFmpPayloadHeaderVersion_returns slot :
  exists r, GetFmpPayloadHeaderVersion Header FmpPayloadSize slot = Returns r.
Proof.
  unfold sizeof_FMP_PAYLOAD_HEADER in sixteen_bytes.
  unfold GetFmpPayloadHeaderVersion.
  destruct (is_NULL Header || slot_is_NULL slot); [ eauto | ].
  destruct (_ || _); [ eauto | ].
  destruct (load_within Header offsetof_HeaderSize 4) as [hs ->];
    [ unfold offsetof_HeaderSize; lia | unfold offsetof_HeaderSize; lia | ].
  cbn [obind]. destruct (hs <? _); [ eauto | ].
  destruct (load_within Header offsetof_Signature 4) as [sig ->];
    [ unfold offsetof_Signature; lia | unfold offsetof_Signature; lia | ].
  cbn [obind]. destruct (negb _); [ eauto | ].
  destruct (load_within Header offsetof_FwVersion 4) as [fw ->];
    [ unfold offsetof_FwVersion; lia | unfold offsetof_FwVersion; lia | ].
  cbn [obind]. eauto.
Qed.

Lemma GetFmpPayloadHeaderLowestSupportedVersion_returns slot :
  exists r,
    GetFmpPayloadHeaderLowestSupportedVersion Header FmpPayloadSize slot = Returns r.
Proof.
  unfold sizeof_FMP_PAYLOAD_HEADER in sixteen_bytes.
  unfold GetFmpPayloadHeaderLowestSupportedVersion.
  destruct (is_NULL Header || slot_is_NULL slot); [ eauto | ].
  destruct (_ || _); [ eauto | ].
  destruct (load_within Header offsetof_HeaderSize 4) as [hs ->];
    [ unfold offsetof_HeaderSize; lia | unfold offsetof_HeaderSize; lia | ].
  cbn [obind]. destruct (hs <? _); [ eauto | ].
  destruct (load_within Header offsetof_Signature 4) as [sig ->];
    [ unfold offsetof_Signature; lia | unfold offsetof_Signature; lia | ].
  cbn [obind]. destruct (negb _); [ eauto | ].
  destruct (load_within Header offsetof_LowestSupportedVersion 4) as [lsv ->];
    [ unfold offsetof_LowestSupportedVersion; lia
    | unfold offsetof_LowestSupportedVersion; lia | ].
  cbn [obind]. eauto.
Qed.

End AccessorsReturn.

(** X5. Round trip for the third accessor: a buffer that starts with the
    encoded header carrying lowest supported version L, with HeaderSize
    at least 16 and a declared payload size above the fixed header size,
    gives L back through GetFmpPayloadHeaderLowestSupportedVersion. *)
Theorem X5_lowest_supported_version_round_trip
  (S V L : Z) (image : list byte) (addr FmpPayloadSize : Z) (old : Z) :
  sizeof_FMP_PAYLOAD_HEADER <= S < 2 ^ 32 ->
  0 <= L < 2 ^ 32 ->
  0 < addr ->
  addr + FmpPayloadSize < 2 ^ 64 ->
  sizeof_FMP_PAYLOAD_HEADER < FmpPayloadSize ->
  GetFmpPayloadHeaderLowestSupportedVersion
    (mkPointer addr (encode_FMP_PAYLOAD_HEADER S V L ++ image))
    FmpPayloadSize (Some old)
  = Returns (EFI_SUCCESS, Some L).
Proof.
  intros HS HL Ha Hn Hsz.
  set (Header := mkPointer addr (encode_FMP_PAYLOAD_HEADER S V L ++ image)).
  assert (Hnn : is_NULL Header = false) by (apply Z.eqb_neq; cbn [address Header]; lia).
  pose proof (bounds_test_passes addr FmpPayloadSize Ha Hn Hsz) as Hb.
  pose proof (encoded_Signature S V L image addr) as Hsig.
  pose proof (encoded_HeaderSize S V L image addr) as Hhs.
  pose proof (encoded_LowestSupportedVersion S V L image addr HL) as Hl.
  fold Header in Hsig, Hhs, Hl.
  unfold sizeof_FMP_PAYLOAD_HEADER in HS.
  assert (HS' : 0 <= S < 2 ^ 32) by lia. specialize (Hhs HS').
  assert (Hge : (S <? sizeof_FMP_PAYLOAD_HEADER) = false)
    by (apply Z.ltb_ge; unfold sizeof_FMP_PAYLOAD_HEADER; lia).
  unfold GetFmpPayloadHeaderLowestSupportedVersion.
  rewrite Hnn. cbn [slot_is_NULL orb address Header].
  rewrite Hb.
  fold Header. rewrite Hhs, Hsig, Hl. cbn [obind]. rewrite Hge, Z.eqb_refl.
  reflexivity.
Qed.

Lemma X5_lowest_supported_version_round_trip_witness :
  GetFmpPayloadHeaderLowestSupportedVersion
    (mkPointer 4096 (encode_FMP_PAYLOAD_HEADER 40 258 257 ++ [Byte.xff]))
    17 (Some 0)
  = Returns (EFI_SUCCESS, Some 257).
Proof.
  apply (X5_lowest_supported_version_round_trip 40 258 257 [Byte.xff] 4096 17 0).
  - unfold sizeof_FMP_PAYLOAD_HEADER. lia.
  - lia.
  - lia.
  - lia.
  - unfold sizeof_FMP_PAYLOAD_HEADER. lia.
Defined.

(** X6. When the declared payload size does not overstate the buffer, no
    accessor reads outside the buffer: each one returns a status. *)
Theorem X6_accessors_stay_inside_declared_payload
  (Header : Pointer) (FmpPayloadSize : Z) (Size Version Lsv : OutSlot Z) :
  0 <= address Header < 2 ^ 64 ->
  0 <= FmpPayloadSize <= Z.of_nat (length (pointee Header)) ->
  (exists r, GetFmpPayloadHeaderSize Header FmpPayloadSize Size = Returns r)
  /\ (exists r, GetFmpPayloadHeaderVersion Header FmpPayloadSize Version = Returns r)
  /\ (exists r,
        GetFmpPayloadHeaderLowestSupportedVersion Header FmpPayloadSize Lsv = Returns r).
Proof.
  intros Ha Hn.
  destruct (Z_le_gt_dec sizeof_FMP_PAYLOAD_HEADER (Z.of_nat (length (pointee Header))))
    as [Hlen | Hlen].
  - split; [ | split ].
    + apply GetFmpPayloadHeaderSize_returns. exact Hlen.
    + apply GetFmpPayloadHeaderVersion_returns. exact Hlen.
    + apply GetFmpPayloadHeaderLowestSupportedVersion_returns. exact Hlen.
  - destruct (accessors_reject_on_bounds Header FmpPayloadSize Size Version Lsv)
      as (E1 & E2 & E3).
    + apply not_false_iff_true. intros Hb.
      apply bounds_test_false_iff in Hb;
        unfold sizeof_FMP_PAYLOAD_HEADER in *; lia.
    + rewrite E1, E2, E3. repeat split; eexists; reflexivity.
Qed.

Lemma X6_accessors_stay_inside_declared_payload_witness :
  (exists r, GetFmpPayloadHeaderSize
               (mkPointer 4096 [Byte.x4d; Byte.x53]) 2 (Some 0) = Returns r)
  /\ (exists r, GetFmpPayloadHeaderVersion
                  (mkPointer 4096 [Byte.x4d; Byte.x53]) 2 (Some 0) = Returns r)
  /\ (exists r, GetFmpPayloadHeaderLowestSupportedVersion
                  (mkPointer 4096 [Byte.x4d; Byte.x53]) 2 (Some 0) = Returns r).
Proof.
  apply (X6_accessors_stay_inside_declared_payload
           (mkPointer 4096 [Byte.x4d; Byte.x53]) 2 (Some 0) (Some 0) (Some 0)).
  - cbn [address]. lia.
  - cbn [pointee length]. lia.
Defined.

(** ** Further properties of the dependency evaluator *)

Lemma existsb_false_In {A : Type} (f : A -> bool) (l : list A) :
  existsb f l = false -> forall x, In x l -> f x = false.
Proof.
  intros H x Hx. destruct (f x) eqn:E; [ | reflexivity ].
  rewrite <- H. symmetry. apply existsb_exists. eauto.
Qed.

Lemma existsb_Permutation {A : Type} (f : A -> bool) (l l' : list A) :
  Permutation l l' -> existsb f l = existsb f l'.
Proof.
  intros HP. destruct (existsb f l') eqn:E.
  - apply existsb_exists in E as (x & Hx & Hfx). apply existsb_exists.
    exists x. split; [ | exact Hfx ].
    apply (Permutation_in x (Permutation_sym HP)). exact Hx.
  - destruct (existsb f l) eqn:E'; [ | reflexivity ].
    apply existsb_exists in E' as (x & Hx & Hfx).
    rewrite (existsb_false_In f l' E x (Permutation_in x HP Hx)) in Hfx.
    discriminate Hfx.
Qed.

Section EvaluatorOnBuffers.

Variable R : Resolver.
Variable Header : Pointer.

Lemma Deps_at_total n : forall off,
  0 <= off ->
  off + sizeof_FW_DEPENDENCY * Z.of_nat n <= Z.of_nat (length (pointee Header)) ->
  exists deps, Deps_at Header off n = Some deps /\ length deps = n.
Proof.
  unfold sizeof_FW_DEPENDENCY.
  induction n as [ | n IH]; intros off H0 Hlen.
  - exists []. split; reflexivity.
  - destruct (IH (off + 24)) as (deps & Hd & Hl); [ lia | lia | ].
    cbn [Deps_at]. unfold Dep_at at 1.
    rewrite read_bytes_Some by lia. cbn [option_map].
    unfold sizeof_FW_DEPENDENCY. rewrite Hd.
    eexists. split; [ reflexivity | ]. cbn [length]. rewrite Hl. reflexivity.
Qed.

(** The verdict on a well-formed payload. *)
Lemma Verify_verdict deps old :
  well_formed Header deps ->
  exists r,
    VerifyFmpPayloadDependencies R Header (Some old) = Returns r
    /\ VerifiedOut r = Some (all_satisfied R deps).
Proof.
  intros Hwf. unfold all_satisfied.
  destruct (existsb (dep_fails R) deps) eqn:E.
  - apply existsb_exists in E.
    destruct (first_failure R deps E) as (pre & e & post & -> & Hpre & Hfail).
    rewrite (Verify_first_failure R Header pre e post old Hwf Hpre Hfail).
    eexists. split; reflexivity.
  - rewrite (Verify_no_failure R Header deps old Hwf (existsb_false_In _ _ E)).
    eexists. split; reflexivity.
Qed.

Hypothesis Header_not_NULL : is_NULL Header = false.
Hypothesis Signature_valid :
  load Header offsetof_Signature 4 = Returns FMP_PAYLOAD_HEADER_SIGNATURE.

(** No dependency bytes: nothing is walked. *)
Lemma Verify_fixed_header_only old :
  load Header offsetof_HeaderSize 4 = Returns sizeof_FMP_PAYLOAD_HEADER ->
  VerifyFmpPayloadDependencies R Header (Some old)
  = Returns (mkResult EFI_SUCCESS (Some true) []).
Proof.
  intros Hhs. unfold VerifyFmpPayloadDependencies. rewrite Header_not_NULL.
  rewrite (evaluate_valid_signature R Header _ _ Signature_valid Hhs).
  reflexivity.
Qed.

(** A buffer that holds the [HeaderSize] bytes its header announces is
    never read past its end. *)
Lemma Verify_returns_within_buffer hs old :
  load Header offsetof_HeaderSize 4 = Returns hs ->
  hs <= Z.of_nat (length (pointee Header)) ->
  exists r, VerifyFmpPayloadDependencies R Header (Some old) = Returns r.
Proof.
  intros Hhs Hlen.
  destruct (Z_lt_le_dec hs sizeof_FMP_PAYLOAD_HEADER) as [Hlt | Hge].
  { rewrite (Verify_short_header R Header Header_not_NULL Signature_valid hs old Hhs Hlt).
    eauto. }
  destruct (Z.eq_dec hs sizeof_FMP_PAYLOAD_HEADER) as [-> | Hne].
  { rewrite (Verify_fixed_header_only old Hhs). eauto. }
  destruct (Z.eq_dec ((hs - sizeof_FMP_PAYLOAD_HEADER) mod sizeof_FW_DEPENDENCY) 0)
    as [Hm | Hm].
  - unfold sizeof_FMP_PAYLOAD_HEADER, sizeof_FW_DEPENDENCY in *.
    apply Z.mod_divide in Hm; [ | lia ]. destruct Hm as [q Hq].
    assert (Hhs' : hs = 16 + 24 * Z.of_nat (Z.to_nat q)) by lia.
    destruct (Deps_at_total (Z.to_nat q) 16) as (deps & Hd & Hl);
      [ lia | unfold sizeof_FW_DEPENDENCY; lia | ].
    assert (Hwf : well_formed Header deps).
    { unfold well_formed, sizeof_FMP_PAYLOAD_HEADER, sizeof_FW_DEPENDENCY.
      rewrite Hl, <- Hhs'. auto. }
    destruct (Verify_verdict deps old Hwf) as (r & Hr & _). eauto.
  - rewrite (Verify_misaligned R Header Header_not_NULL Signature_valid hs old Hhs);
      [ eauto | lia | exact Hm ].
Qed.

End EvaluatorOnBuffers.

Section ExaminedFields.

Variable R : Resolver.

Lemma examined_eq e e' :
  examined e = examined e' ->
  resolve R e = resolve R e'
  /\ call_of e = call_of e'
  /\ dep_fails R e = dep_fails R e'.
Proof.
  unfold examined. intros [= Hg Hi Hr Hf].
  change (Z.lor FW_DEPENDENCY_FLAG_MATCH_EXACT_VERSION FW_DEPENDENCY_FLAG_REQUIRED)
    with 3 in Hf.
  assert (Hres : resolve R e = resolve R e') by (unfold resolve; rewrite Hg, Hi; reflexivity).
  assert (Hreq : has_REQUIRED e = has_REQUIRED e').
  { unfold has_REQUIRED, FW_DEPENDENCY_FLAG_REQUIRED.
    change 1 with (Z.land 3 1) at 1 3.
    rewrite !Z.land_assoc, Hf. reflexivity. }
  assert (Hex : has_MATCH_EXACT_VERSION e = has_MATCH_EXACT_VERSION e').
  { unfold has_MATCH_EXACT_VERSION, FW_DEPENDENCY_FLAG_MATCH_EXACT_VERSION.
    change 2 with (Z.land 3 2) at 1 3.
    rewrite !Z.land_assoc, Hf. reflexivity. }
  split; [ exact Hres | ]. split.
  - unfold call_of. rewrite Hg, Hi. reflexivity.
  - unfold dep_fails. rewrite Hres, Hreq, Hex, Hr. reflexivity.
Qed.

Lemma after_call_examined e e' fr :
  examined e = examined e' -> after_call R e fr = after_call R e' fr.
Proof.
  intros H. destruct (examined_eq e e' H) as (Hres & Hcall & _).
  unfold after_call. rewrite Hres, Hcall. reflexivity.
Qed.

(** Two walks over entries with the same examined fields go the same
    way, wherever the entries are stored. *)
Lemma walk_examined H H' deps : forall deps' off off' fr,
  Deps_at H off (length deps) = Some deps ->
  Deps_at H' off' (length deps') = Some deps' ->
  map examined deps = map examined deps' ->
  walk R H (length deps) off fr = walk R H' (length deps') off' fr.
Proof.
  induction deps as [ | e deps IH]; intros [ | e' deps'] off off' fr Hd Hd' Hm;
    try discriminate Hm.
  - reflexivity.
  - cbn [map] in Hm.
    pose proof (f_equal (hd (examined e)) Hm) as He.
    pose proof (f_equal (@tl _) Hm) as Ht. cbn [hd tl] in He, Ht.
    cbn [length] in Hd, Hd' |- *.
    apply Deps_at_cons in Hd as [Hd1 Hd2]. apply Deps_at_cons in Hd' as [Hd1' Hd2'].
    destruct (examined_eq e e' He) as (Hres & Hcall & Hfail).
    destruct (dep_fails R e) eqn:Hf.
    + rewrite (walk_step_fails R H _ _ e fr Hd1 Hf).
      rewrite (walk_step_fails R H' _ _ e' fr Hd1' (eq_sym Hfail)).
      rewrite (after_call_examined e e' fr He), Hcall. reflexivity.
    + rewrite (walk_step_passes R H _ _ e fr Hd1 Hf).
      rewrite (walk_step_passes R H' _ _ e' fr Hd1' (eq_sym Hfail)).
      rewrite (after_call_examined e e' fr He).
      apply IH; assumption.
Qed.

Lemma Verify_examined H H' deps deps' v :
  well_formed H deps -> well_formed H' deps' ->
  map examined deps = map examined deps' ->
  VerifyFmpPayloadDependencies R H v = VerifyFmpPayloadDependencies R H' v.
Proof.
  intros (Hn & Hsig & Hhs & Hd) (Hn' & Hsig' & Hhs' & Hd') Hm.
  unfold VerifyFmpPayloadDependencies. rewrite Hn, Hn'.
  rewrite (evaluate_entries R H _ _ Hsig Hhs).
  rewrite (evaluate_entries R H' _ _ Hsig' Hhs').
  unfold bind at 1 2.
  rewrite (walk_examined H H' deps deps' _ _ _ Hd Hd' Hm). reflexivity.
Qed.

End ExaminedFields.

Section Traces.

Variable R : Resolver.
Variable Header : Pointer.

Lemma reached_same n fr fr' :
  trace fr' = trace fr -> FmpDesc fr' = FmpDesc fr -> reached_by_calls R n fr fr'.
Proof.
  intros Ht Hd. exists []. rewrite app_nil_r.
  split; [ exact Ht | ]. split; [ intros ev [] | ]. split; [ cbn; lia | ].
  intros d H. left. rewrite <- Hd. exact H.
Qed.

Lemma reached_after_call n fr fr1 fr' g i :
  trace fr1 = trace fr ++ [CallGetFmpAndDescriptor g i] ->
  (forall d, FmpDesc fr1 = Some d -> FmpDesc fr = Some d \/ R g i = Found d) ->
  reached_by_calls R n fr1 fr' ->
  reached_by_calls R (S n) fr fr'.
Proof.
  intros Ht Hd (calls & Ht' & Hall & Hlen & Hd').
  exists (CallGetFmpAndDescriptor g i :: calls).
  split; [ rewrite Ht', Ht, <- app_assoc; reflexivity | ].
  split; [ intros ev [<- | Hev]; [ reflexivity | auto ] | ].
  split; [ cbn [length]; lia | ].
  intros d H. destruct (Hd' d H) as [H1 | (g' & i' & Hin & HR)].
  - destruct (Hd d H1) as [H0 | HR]; [ left; exact H0 | ].
    right. exists g, i. split; [ left; reflexivity | exact HR ].
  - right. exists g', i'. split; [ right; exact Hin | exact HR ].
Qed.

(** A jump to [EXIT] out of the loop changes [*Verified] and [Status]
    only. *)
Lemma jump_frame b s fr flow fr' :
  (store_Verified b ;;; set_Status s ;;; ret GotoEXIT) fr = Returns (flow, fr') ->
  trace fr' = trace fr /\ FmpDesc fr' = FmpDesc fr.
Proof.
  unfold bind, store_Verified, set_Status, ret.
  destruct (Verified fr); [ | discriminate ].
  intros [= _ <-]. split; reflexivity.
Qed.

Lemma walk_reached n : forall off fr flow fr',
  walk R Header n off fr = Returns (flow, fr') ->
  reached_by_calls R n fr fr'.
Proof.
  induction n as [ | n IH]; intros off fr flow fr' H.
  - cbn [walk] in H. unfold ret in H. injection H as _ <-.
    apply reached_same; reflexivity.
  - cbn [walk] in H. unfold bind at 1 in H. unfold lift at 1 in H.
    destruct (load Header (off + offsetof_ImageIndex) 1) as [idx | f];
      [ | discriminate ].
    unfold bind at 1 in H. unfold lift at 1 in H.
    destruct (load_bytes Header (off + offsetof_FmpInstance) 16) as [g | f];
      [ | discriminate ].
    unfold bind at 1 in H. unfold call_GetFmpAndDescriptor in H.
    destruct (R g idx) as [d | code clears] eqn:HR.
    + unfold bind at 1 in H. unfold get_Status in H; cbn [Status] in H.
      change (EFI_ERROR EFI_SUCCESS) with false in H. cbv iota in H.
      unfold bind at 1 in H. unfold lift at 1 in H.
      destruct (load Header (off + offsetof_RequiredVersionInSystem) 4) as [rv | f];
        [ | discriminate ].
      unfold bind at 1 in H. unfold FmpDesc_Version at 1 in H.
      cbn [FmpDesc Version] in H.
      assert (Hstep : forall fr1,
                 trace fr1 = trace fr ++ [CallGetFmpAndDescriptor g idx] ->
                 FmpDesc fr1 = Some d ->
                 reached_by_calls R n fr1 fr' -> reached_by_calls R (S n) fr fr').
      { intros fr1 Ht Hd. apply (reached_after_call n fr fr1 fr' g idx Ht).
        intros d' Hd'. right. rewrite HR. congruence. }
      destruct (rv >? Version d).
      { apply jump_frame in H as [Ht Hd].
        eapply Hstep; [ | | apply reached_same; eassumption ]; reflexivity. }
      unfold bind at 1 in H. unfold lift at 1 in H.
      destruct (load Header (off + offsetof_Flags) 2) as [fl | f]; [ | discriminate ].
      destruct ((Z.land fl FW_DEPENDENCY_FLAG_MATCH_EXACT_VERSION
                 =? FW_DEPENDENCY_FLAG_MATCH_EXACT_VERSION) && negb (rv =? Version d)).
      { apply jump_frame in H as [Ht Hd].
        eapply Hstep; [ | | apply reached_same; eassumption ]; reflexivity. }
      unfold bind at 1 in H. unfold set_Status in H.
      cbn [Verified FmpDesc Status trace] in H.
      apply IH in H. eapply Hstep; [ | | exact H ]; reflexivity.
    + unfold bind at 1 in H. unfold get_Status in H; cbn [Status] in H.
      rewrite EFI_ERROR_ENCODE_ERROR in H.
      unfold bind at 1 in H. unfold lift at 1 in H.
      destruct (load Header (off + offsetof_Flags) 2) as [fl | f]; [ | discriminate ].
      assert (Hstep : forall fr1,
                 trace fr1 = trace fr ++ [CallGetFmpAndDescriptor g idx] ->
                 FmpDesc fr1 = (if clears then None else FmpDesc fr) ->
                 reached_by_calls R n fr1 fr' -> reached_by_calls R (S n) fr fr').
      { intros fr1 Ht Hd. apply (reached_after_call n fr fr1 fr' g idx Ht).
        intros d' Hd'. left. rewrite Hd in Hd'. destruct clears; congruence. }
      destruct (Z.land fl FW_DEPENDENCY_FLAG_REQUIRED =? FW_DEPENDENCY_FLAG_REQUIRED).
      { apply jump_frame in H as [Ht Hd].
        eapply Hstep; [ | | apply reached_same; eassumption ]; reflexivity. }
      apply IH in H. eapply Hstep; [ | | exact H ]; reflexivity.
Qed.

(** The calls of a whole run: resolver calls, at most as many as
    [HeaderSize] announces entries, then at most one [FreePool], of a
    descriptor one of those calls handed out. *)
Lemma Verify_calls v r :
  VerifyFmpPayloadDependencies R Header v = Returns r ->
  exists calls rel,
    Calls r = calls ++ rel
    /\ (forall ev, In ev calls -> is_resolve_call ev = true)
    /\ (calls = []
        \/ exists hs, load Header offsetof_HeaderSize 4 = Returns hs
                      /\ 0 < hs - sizeof_FMP_PAYLOAD_HEADER
                      /\ Z.of_nat (length calls)
                         <= (hs - sizeof_FMP_PAYLOAD_HEADER) / sizeof_FW_DEPENDENCY)
    /\ (rel = []
        \/ exists d g i, rel = [CallFreePool d]
                         /\ In (CallGetFmpAndDescriptor g i) calls
                         /\ R g i = Found d).
Proof.
  assert (Hnil : forall st vo,
             exists calls rel : list Event,
               Calls (mkResult st vo []) = calls ++ rel
               /\ (forall ev, In ev calls -> is_resolve_call ev = true)
               /\ (calls = []
                   \/ exists hs, load Header offsetof_HeaderSize 4 = Returns hs
                        /\ 0 < hs - sizeof_FMP_PAYLOAD_HEADER
                        /\ Z.of_nat (length calls)
                           <= (hs - sizeof_FMP_PAYLOAD_HEADER) / sizeof_FW_DEPENDENCY)
               /\ (rel = []
                   \/ exists d g i, rel = [CallFreePool d]
                        /\ In (CallGetFmpAndDescriptor g i) calls
                        /\ R g i = Found d)).
  { intros st vo. exists [], []. repeat split; auto; intros ev []. }
  unfold VerifyFmpPayloadDependencies.
  destruct (is_NULL Header); [ intros [= <-]; apply Hnil | ].
  fold (frame0 v).
  destruct (evaluate R Header (frame0 v)) as [[st fr] | f] eqn:E; [ | discriminate ].
  intros [= <-]. cbn [Calls].
  unfold evaluate in E. unfold bind at 1 in E. unfold lift at 1 in E.
  destruct (load Header offsetof_Signature 4) as [sig | f] eqn:Hsig; [ | discriminate ].
  destruct (Z.eqb_spec sig FMP_PAYLOAD_HEADER_SIGNATURE) as [-> | Hne]; cbn [negb] in E;
    [ | unfold ret in E; injection E as _ <-; apply (Hnil 0 None) ].
  unfold bind at 1 in E. unfold lift at 1 in E.
  destruct (load Header offsetof_HeaderSize 4) as [hs | f] eqn:Hhs; [ | discriminate ].
  assert (E' : evaluate R Header (frame0 v) = Returns (st, fr)).
  { unfold evaluate. unfold bind at 1. unfold lift at 1. rewrite Hsig.
    rewrite Z.eqb_refl. cbn [negb]. unfold bind at 1. unfold lift at 1.
    rewrite Hhs. exact E. }
  clear E. rewrite (evaluate_valid_signature R Header hs _ Hsig Hhs) in E'.
  unfold bind at 1 in E'.
  destruct (hs - 16 >? 0) eqn:Hpos.
  - apply Z.gtb_lt in Hpos.
    destruct (negb ((hs - 16) mod 24 =? 0)).
    + unfold bind, store_Verified, set_Status, ret, finish in E'.
      cbn [frame0 Verified FmpDesc Status trace] in E'.
      destruct v; [ | discriminate ].
      rewrite EXIT_frame in E'. injection E' as _ <-. apply (Hnil 0 None).
    + destruct (walk R Header (Z.to_nat ((hs - 16) / 24)) sizeof_FMP_PAYLOAD_HEADER
                  (frame0 v)) as [[flow fr1] | f] eqn:Hw; [ | discriminate ].
      apply walk_reached in Hw as (calls & Ht & Hall & Hlen & Hd).
      cbn [frame0 trace FmpDesc app] in Ht, Hd.
      assert (Hfin : trace fr = calls ++ release_of fr1).
      { unfold finish, bind in E'. destruct flow.
        - unfold store_Verified in E'. destruct (Verified fr1); [ | discriminate ].
          rewrite EXIT_frame in E'. injection E' as _ <-.
          cbn [trace]. unfold release_of. cbn [FmpDesc]. rewrite Ht. reflexivity.
        - unfold ret in E'. rewrite EXIT_frame in E'. injection E' as _ <-.
          cbn [trace]. rewrite Ht. reflexivity. }
      exists calls, (release_of fr1). split; [ exact Hfin | ].
      split; [ exact Hall | ]. split.
      * right. exists hs. split; [ reflexivity | ].
        unfold sizeof_FMP_PAYLOAD_HEADER, sizeof_FW_DEPENDENCY.
        split; [ lia | ].
        assert (0 <= (hs - 16) / 24) by (apply Z.div_pos; lia). lia.
      * unfold release_of. destruct (FmpDesc fr1) as [d | ] eqn:Hfd; [ | left; reflexivity ].
        right. destruct (Hd d eq_refl) as [H0 | (g & i & Hin & HR)]; [ discriminate | ].
        exists d, g, i. auto.
  - unfold ret, finish, bind, store_Verified in E'.
    cbn [frame0 Verified] in E'. destruct v; [ | discriminate ].
    rewrite EXIT_frame in E'. injection E' as _ <-. apply (Hnil 0 None).
Qed.

End Traces.

Lemma resolver_calls_all (calls rel : list Event) :
  (forall ev, In ev calls -> is_resolve_call ev = true) ->
  (forall ev, In ev rel -> is_resolve_call ev = false) ->
  resolver_calls (calls ++ rel) = calls.
Proof.
  intros Hc Hr. unfold resolver_calls. rewrite filter_app.
  replace (filter is_resolve_call rel) with (@nil Event).
  - rewrite app_nil_r. induction calls as [ | ev calls IH]; [ reflexivity | ].
    cbn [filter]. rewrite (Hc ev (in_eq _ _)). f_equal.
    apply IH. intros x Hx. apply Hc. right. exact Hx.
  - symmetry. induction rel as [ | ev rel IH]; [ reflexivity | ].
    cbn [filter]. rewrite (Hr ev (in_eq _ _)). apply IH.
    intros x Hx. apply Hr. right. exact Hx.
Qed.

Lemma releases_of_resolver_calls (calls : list Event) :
  (forall ev, In ev calls -> is_resolve_call ev = true) ->
  releases calls = 0%nat.
Proof.
  unfold releases. induction calls as [ | ev calls IH]; intros H; [ reflexivity | ].
  cbn [filter]. pose proof (H ev (in_eq _ _)) as Hev.
  destruct ev; [ | discriminate Hev ]. cbn [is_release].
  apply IH. intros x Hx. apply H. right. exact Hx.
Qed.

(** X7. A header whose HeaderSize is exactly the fixed header size has no
    dependency bytes: with a valid signature the call returns EFI_SUCCESS,
    stores TRUE and calls neither the resolver nor FreePool, whatever
    follows the header. *)
Theorem X7_no_dependency_bytes
  (R : Resolver) (Header : Pointer) (old : bool) :
  is_NULL Header = false ->
  load Header offsetof_Signature 4 = Returns FMP_PAYLOAD_HEADER_SIGNATURE ->
  load Header offsetof_HeaderSize 4 = Returns sizeof_FMP_PAYLOAD_HEADER ->
  VerifyFmpPayloadDependencies R Header (Some old)
  = Returns (mkResult EFI_SUCCESS (Some true) []).
Proof.
  intros Hnn Hsig Hhs.
  exact (Verify_fixed_header_only R Header Hnn Hsig old Hhs).
Qed.

Lemma X7_no_dependency_bytes_witness :
  VerifyFmpPayloadDependencies Examples.registry
    (Examples.payload 16 [] [Byte.x01; Byte.x02]) (Some false)
  = Returns (mkResult EFI_SUCCESS (Some true) []).
Proof.
  apply (X7_no_dependency_bytes Examples.registry
           (Examples.payload 16 [] [Byte.x01; Byte.x02]) false); reflexivity.
Defined.

(** X8. When the caller's buffer holds at least the HeaderSize bytes
    that a valid-signature header announces, and Verified is not null,
    the evaluator never reads outside the buffer: the call returns. *)
Theorem X8_evaluator_stays_inside_HeaderSize_bytes
  (R : Resolver) (Header : Pointer) (HeaderSize : Z) (old : bool) :
  is_NULL Header = false ->
  load Header offsetof_Signature 4 = Returns FMP_PAYLOAD_HEADER_SIGNATURE ->
  load Header offsetof_HeaderSize 4 = Returns HeaderSize ->
  HeaderSize <= Z.of_nat (length (pointee Header)) ->
  exists r, VerifyFmpPayloadDependencies R Header (Some old) = Returns r.
Proof.
  intros Hnn Hsig Hhs Hlen.
  exact (Verify_returns_within_buffer R Header Hnn Hsig HeaderSize old Hhs Hlen).
Qed.

Lemma X8_evaluator_stays_inside_HeaderSize_bytes_witness :
  exists r,
    VerifyFmpPayloadDependencies Examples.registry
      (Examples.payload 64
         [Examples.dep Examples.guid_A 5 0; Examples.dep Examples.guid_absent 1 0] [])
      (Some false)
    = Returns r.
Proof.
  apply (X8_evaluator_stays_inside_HeaderSize_bytes Examples.registry _ 64 false).
  - reflexivity.
  - reflexivity.
  - reflexivity.
  - apply Z.leb_le. vm_compute. reflexivity.
Defined.

(** X9. On a well-formed payload the call returns and the verdict stored
    in Verified is TRUE exactly when no entry fails (required and absent,
    below the required version, or not the exact version demanded). *)
Theorem X9_verdict_is_no_entry_fails
  (R : Resolver) (Header : Pointer) (deps : list FW_DEPENDENCY) (old : bool) :
  well_formed Header deps ->
  exists r,
    VerifyFmpPayloadDependencies R Header (Some old) = Returns r
    /\ VerifiedOut r = Some (all_satisfied R deps).
Proof. intros Hwf. exact (Verify_verdict R Header deps old Hwf). Qed.

Lemma X9_verdict_is_no_entry_fails_witness :
  exists r,
    VerifyFmpPayloadDependencies Examples.registry
      (Examples.payload 64
         [Examples.dep Examples.guid_A 5 2; Examples.dep Examples.guid_B 8 0] [])
      (Some true)
    = Returns r
    /\ VerifiedOut r
       = Some (all_satisfied Examples.registry
                 [Examples.dep Examples.guid_A 5 2; Examples.dep Examples.guid_B 8 0]).
Proof.
  apply (X9_verdict_is_no_entry_fails Examples.registry
           (Examples.payload 64
              [Examples.dep Examples.guid_A 5 2; Examples.dep Examples.guid_B 8 0] [])
           [Examples.dep Examples.guid_A 5 2; Examples.dep Examples.guid_B 8 0] true).
  repeat split; reflexivity.
Defined.

(** X10. The verdict does not depend on the order of the entries: two
    well-formed payloads whose entries are permutations of each other
    get the same verdict. *)
Theorem X10_verdict_is_order_independent
  (R : Resolver) (Header Header' : Pointer) (deps deps' : list FW_DEPENDENCY)
  (old : bool) :
  well_formed Header deps ->
  well_formed Header' deps' ->
  Permutation deps deps' ->
  exists r r',
    VerifyFmpPayloadDependencies R Header (Some old) = Returns r
    /\ VerifyFmpPayloadDependencies R Header' (Some old) = Returns r'
    /\ VerifiedOut r = VerifiedOut r'.
Proof.
  intros Hwf Hwf' HP.
  destruct (Verify_verdict R Header deps old Hwf) as (r & Hr & Hv).
  destruct (Verify_verdict R Header' deps' old Hwf') as (r' & Hr' & Hv').
  exists r, r'. split; [ exact Hr | ]. split; [ exact Hr' | ].
  rewrite Hv, Hv'. unfold all_satisfied.
  rewrite (existsb_Permutation (dep_fails R) deps deps' HP). reflexivity.
Qed.

Lemma X10_verdict_is_order_independent_witness :
  exists r r',
    VerifyFmpPayloadDependencies Examples.registry
      (Examples.payload 64
         [Examples.dep Examples.guid_A 6 0; Examples.dep Examples.guid_B 6 0] [])
      (Some true)
    = Returns r
    /\ VerifyFmpPayloadDependencies Examples.registry
      (Examples.payload 64
         [Examples.dep Examples.guid_B 6 0; Examples.dep Examples.guid_A 6 0] [])
      (Some true)
    = Returns r'
    /\ VerifiedOut r = VerifiedOut r'.
Proof.
  apply (X10_verdict_is_order_independent Examples.registry
           (Examples.payload 64
              [Examples.dep Examples.guid_A 6 0; Examples.dep Examples.guid_B 6 0] [])
           (Examples.payload 64
              [Examples.dep Examples.guid_B 6 0; Examples.dep Examples.guid_A 6 0] [])
           [Examples.dep Examples.guid_A 6 0; Examples.dep Examples.guid_B 6 0]
           [Examples.dep Examples.guid_B 6 0; Examples.dep Examples.guid_A 6 0] true).
  - repeat split; reflexivity.
  - repeat split; reflexivity.
  - apply perm_swap.
Defined.

(** X11. The evaluator looks at four things in an entry: the component
    identifier, the image index, the required version and the two known
    flag bits.  Two well-formed payloads whose entries agree on these
    give the same result (status, verdict and calls): the Reserved byte,
    unknown flag bits, the version fields of the header, the bytes after
    the entries and the address of the buffer play no part. *)
Theorem X11_only_examined_fields_matter
  (R : Resolver) (Header Header' : Pointer) (deps deps' : list FW_DEPENDENCY)
  (VerifiedPtr : OutSlot bool) :
  well_formed Header deps ->
  well_formed Header' deps' ->
  map examined deps = map examined deps' ->
  VerifyFmpPayloadDependencies R Header VerifiedPtr
  = VerifyFmpPayloadDependencies R Header' VerifiedPtr.
Proof.
  intros Hwf Hwf' Hm.
  exact (Verify_examined R Header Header' deps deps' VerifiedPtr Hwf Hwf' Hm).
Qed.

Lemma X11_only_examined_fields_matter_witness :
  VerifyFmpPayloadDependencies Examples.registry
    (Examples.payload 40 [mkFW_DEPENDENCY Examples.guid_A 5 0 7 4] [Byte.xff])
    (Some false)
  = VerifyFmpPayloadDependencies Examples.registry
      (mkPointer 8192
         (encode_FMP_PAYLOAD_HEADER 40 9 9
          ++ encode_FW_DEPENDENCY (Examples.dep Examples.guid_A 5 0)))
      (Some false).
Proof.
  apply (X11_only_examined_fields_matter Examples.registry _ _
           [mkFW_DEPENDENCY Examples.guid_A 5 0 7 4]
           [Examples.dep Examples.guid_A 5 0] (Some false)).
  - repeat split; reflexivity.
  - repeat split; reflexivity.
  - reflexivity.
Defined.

(** X12. Whatever the buffer holds, a call that returns has called
    FreePool at most once, and only on a descriptor that the resolver
    handed out during this call. *)
Theorem X12_at_most_one_release_of_an_acquired_descriptor
  (R : Resolver) (Header : Pointer) (VerifiedPtr : OutSlot bool) (r : Result) :
  VerifyFmpPayloadDependencies R Header VerifiedPtr = Returns r ->
  (releases (Calls r) <= 1)%nat
  /\ forall d, In (CallFreePool d) (Calls r) ->
       exists g i, In (CallGetFmpAndDescriptor g i) (Calls r) /\ R g i = Found d.
Proof.
  intros H.
  destruct (Verify_calls R Header VerifiedPtr r H)
    as (calls & rel & -> & Hall & _ & Hrel).
  split.
  - unfold releases. rewrite filter_app, length_app.
    fold (releases calls). rewrite (releases_of_resolver_calls calls Hall).
    destruct Hrel as [-> | (d & g & i & -> & _)]; cbn; lia.
  - intros d Hin. apply in_app_or in Hin as [Hin | Hin].
    + apply Hall in Hin. discriminate Hin.
    + destruct Hrel as [-> | (d' & g & i & -> & Hg & HR)]; [ destruct Hin | ].
      destruct Hin as [[= <-] | []].
      exists g, i. split; [ apply in_or_app; left; exact Hg | exact HR ].
Qed.

Lemma X12_at_most_one_release_of_an_acquired_descriptor_witness :
  (releases [CallGetFmpAndDescriptor Examples.guid_A 0;
             CallGetFmpAndDescriptor Examples.guid_absent 0;
             CallFreePool (mkDescriptor 5)] <= 1)%nat
  /\ forall d,
       In (CallFreePool d)
          [CallGetFmpAndDescriptor Examples.guid_A 0;
           CallGetFmpAndDescriptor Examples.guid_absent 0;
           CallFreePool (mkDescriptor 5)] ->
       exists g i,
         In (CallGetFmpAndDescriptor g i)
            [CallGetFmpAndDescriptor Examples.guid_A 0;
             CallGetFmpAndDescriptor Examples.guid_absent 0;
             CallFreePool (mkDescriptor 5)]
         /\ Examples.registry g i = Found d.
Proof.
  apply (X12_at_most_one_release_of_an_acquired_descriptor Examples.registry
           (Examples.payload 64
              [Examples.dep Examples.guid_A 5 0; Examples.dep Examples.guid_absent 1 0] [])
           (Some false)
           (mkResult EFI_NOT_FOUND (Some true)
              [CallGetFmpAndDescriptor Examples.guid_A 0;
               CallGetFmpAndDescriptor Examples.guid_absent 0;
               CallFreePool (mkDescriptor 5)])).
  vm_compute. reflexivity.
Defined.

(** X13. Whatever the buffer holds, a call that returns has called the
    resolver at most (HeaderSize - 16) / 24 times, and not at all when
    HeaderSize is 16 or less. *)
Theorem X13_resolver_calls_bounded_by_HeaderSize
  (R : Resolver) (Header : Pointer) (VerifiedPtr : OutSlot bool) (r : Result)
  (HeaderSize : Z) :
  VerifyFmpPayloadDependencies R Header VerifiedPtr = Returns r ->
  load Header offsetof_HeaderSize 4 = Returns HeaderSize ->
  Z.of_nat (length (resolver_calls (Calls r)))
  <= Z.max 0 ((HeaderSize - sizeof_FMP_PAYLOAD_HEADER) / sizeof_FW_DEPENDENCY).
Proof.
  intros H Hhs.
  destruct (Verify_calls R Header VerifiedPtr r H)
    as (calls & rel & -> & Hall & Hcount & Hrel).
  rewrite (resolver_calls_all calls rel Hall).
  - destruct Hcount as [-> | (hs & Hhs' & _ & Hle)]; [ cbn; lia | ].
    rewrite Hhs in Hhs'. injection Hhs' as <-. lia.
  - destruct Hrel as [-> | (d & g & i & -> & _)].
    + intros ev [].
    + intros ev [<- | []]. reflexivity.
Qed.

Lemma X13_resolver_calls_bounded_by_HeaderSize_witness :
  Z.of_nat (length (resolver_calls [CallGetFmpAndDescriptor Examples.guid_A 0;
                                    CallFreePool (mkDescriptor 5)]))
  <= Z.max 0 ((64 - sizeof_FMP_PAYLOAD_HEADER) / sizeof_FW_DEPENDENCY).
Proof.
  apply (X13_resolver_calls_bounded_by_HeaderSize Examples.registry
           (Examples.payload 64
              [Examples.dep Examples.guid_A 6 0; Examples.dep Examples.guid_B 6 0] [])
           (Some true)
           (mkResult EFI_SUCCESS (Some false)
              [CallGetFmpAndDescriptor Examples.guid_A 0;
               CallFreePool (mkDescriptor 5)])
           64).
  - vm_compute. reflexivity.
  - reflexivity.
Defined.

(** X14. The accessor and the evaluator compose: when
    GetFmpPayloadHeaderSize accepted the header and reported size S, and
    the buffer holds at least S bytes, a call of the evaluator with a
    non-null Verified returns without reading outside the buffer. *)
Theorem X14_evaluator_after_accepted_header
  (R : Resolver) (Header : Pointer) (FmpPayloadSize : Z) (Size : OutSlot Z)
  (S : Z) (old : bool) :
  GetFmpPayloadHeaderSize Header FmpPayloadSize Size = Returns (EFI_SUCCESS, Some S) ->
  S <= Z.of_nat (length (pointee Header)) ->
  exists r, VerifyFmpPayloadDependencies R Header (Some old) = Returns r.
Proof.
  intros Hacc Hlen.
  apply GetFmpPayloadHeaderSize_success_iff in Hacc
    as (Hnn & _ & _ & hs & Hhs & _ & Hsig & [= ->]).
  exact (Verify_returns_within_buffer R Header Hnn Hsig hs old Hhs Hlen).
Qed.

Lemma X14_evaluator_after_accepted_header_witness :
  exists r,
    VerifyFmpPayloadDependencies Examples.registry
      (Examples.payload 40 [Examples.dep Examples.guid_A 5 0] [Byte.x00]) (Some false)
    = Returns r.
Proof.
  apply (X14_evaluator_after_accepted_header Examples.registry
           (Examples.payload 40 [Examples.dep Examples.guid_A 5 0] [Byte.x00])
           41 (Some 0) 40 false).
  - vm_compute. reflexivity.
  - apply Z.leb_le. vm_compute. reflexivity.
Defined.

(** X15. From bytes to verdict: for every list of entries whose fields
    fit the packed layout, the payload made of the encoded header
    (HeaderSize = 16 + 24 * number of entries), the encoded entries and
    any image bytes is evaluated to the verdict "no entry fails". *)
Theorem X15_encoded_payload_verdict
  (R : Resolver) (addr FwVersion LowestSupportedVersion : Z)
  (deps : list FW_DEPENDENCY) (image : list byte) (old : bool) :
  addr <> 0 ->
  Forall FW_DEPENDENCY_fits deps ->
  sizeof_FMP_PAYLOAD_HEADER + sizeof_FW_DEPENDENCY * Z.of_nat (length deps) < 2 ^ 32 ->
  exists r,
    VerifyFmpPayloadDependencies R
      (mkPointer addr
         (encode_FMP_PAYLOAD_HEADER
            (sizeof_FMP_PAYLOAD_HEADER + sizeof_FW_DEPENDENCY * Z.of_nat (length deps))
            FwVersion LowestSupportedVersion
          ++ flat_map encode_FW_DEPENDENCY deps ++ image))
      (Some old)
    = Returns r
    /\ VerifiedOut r = Some (all_satisfied R deps).
Proof.
  intros Ha Hfit Hlen.
  apply Verify_verdict.
  exact (well_formed_payload addr FwVersion LowestSupportedVersion deps image Ha Hfit Hlen).
Qed.

Lemma X15_encoded_payload_verdict_witness :
  exists r,
    VerifyFmpPayloadDependencies Examples.registry
      (mkPointer 4096
         (encode_FMP_PAYLOAD_HEADER
            (sizeof_FMP_PAYLOAD_HEADER
             + sizeof_FW_DEPENDENCY
               * Z.of_nat (length [Examples.dep Examples.guid_B 7 2]))
            3 2
          ++ flat_map encode_FW_DEPENDENCY [Examples.dep Examples.guid_B 7 2]
          ++ [Byte.x00]))
      (Some false)
    = Returns r
    /\ VerifiedOut r
       = Some (all_satisfied Examples.registry [Examples.dep Examples.guid_B 7 2]).
Proof.
  apply (X15_encoded_payload_verdict Examples.registry 4096 3 2
           [Examples.dep Examples.guid_B 7 2] [Byte.x00] false).
  - discriminate.
  - repeat constructor; cbn; lia.
  - cbn. lia.
Defined.

Section Statuses.

Variable R : Resolver.
Variable Header : Pointer.

Lemma jump_status b s fr flow fr' :
  (store_Verified b ;;; set_Status s ;;; ret GotoEXIT) fr = Returns (flow, fr') ->
  Status fr' = s.
Proof.
  unfold bind, store_Verified, set_Status, ret.
  destruct (Verified fr); [ | discriminate ].
  intros [= _ <-]. reflexivity.
Qed.

(** The status a walk leaves behind: the one it started with (no entry
    walked), [EFI_SUCCESS], or the error of a failed resolver call. *)
Lemma walk_status n : forall off fr flow fr',
  walk R Header n off fr = Returns (flow, fr') ->
  Status fr' = Status fr
  \/ Status fr' = EFI_SUCCESS
  \/ exists g i code clears,
       R g i = NotFound code clears /\ Status fr' = ENCODE_ERROR code.
Proof.
  induction n as [ | n IH]; intros off fr flow fr' H.
  - cbn [walk] in H. unfold ret in H. injection H as _ <-. left. reflexivity.
  - right. cbn [walk] in H. unfold bind at 1 in H. unfold lift at 1 in H.
    destruct (load Header (off + offsetof_ImageIndex) 1) as [idx | f];
      [ | discriminate ].
    unfold bind at 1 in H. unfold lift at 1 in H.
    destruct (load_bytes Header (off + offsetof_FmpInstance) 16) as [g | f];
      [ | discriminate ].
    unfold bind at 1 in H. unfold call_GetFmpAndDescriptor in H.
    destruct (R g idx) as [d | code clears] eqn:HR.
    + unfold bind at 1 in H. unfold get_Status in H; cbn [Status] in H.
      change (EFI_ERROR EFI_SUCCESS) with false in H. cbv iota in H.
      unfold bind at 1 in H. unfold lift at 1 in H.
      destruct (load Header (off + offsetof_RequiredVersionInSystem) 4) as [rv | f];
        [ | discriminate ].
      unfold bind at 1 in H. unfold FmpDesc_Version at 1 in H.
      cbn [FmpDesc Version] in H.
      destruct (rv >? Version d); [ left; exact (jump_status _ _ _ _ _ H) | ].
      unfold bind at 1 in H. unfold lift at 1 in H.
      destruct (load Header (off + offsetof_Flags) 2) as [fl | f]; [ | discriminate ].
      destruct ((Z.land fl FW_DEPENDENCY_FLAG_MATCH_EXACT_VERSION
                 =? FW_DEPENDENCY_FLAG_MATCH_EXACT_VERSION) && negb (rv =? Version d));
        [ left; exact (jump_status _ _ _ _ _ H) | ].
      unfold bind at 1 in H. unfold set_Status in H.
      cbn [Verified FmpDesc Status trace] in H.
      apply IH in H. cbn [Status] in H. destruct H as [H | H]; [ left | ]; exact H.
    + unfold bind at 1 in H. unfold get_Status in H; cbn [Status] in H.
      rewrite EFI_ERROR_ENCODE_ERROR in H.
      unfold bind at 1 in H. unfold lift at 1 in H.
      destruct (load Header (off + offsetof_Flags) 2) as [fl | f]; [ | discriminate ].
      destruct (Z.land fl FW_DEPENDENCY_FLAG_REQUIRED =? FW_DEPENDENCY_FLAG_REQUIRED);
        [ left; exact (jump_status _ _ _ _ _ H) | ].
      apply IH in H. cbn [Status] in H. destruct H as [H | H]; [ | exact H ].
      right. exists g, idx, code, clears. auto.
Qed.

Lemma finish_status flow fr st fr' :
  finish flow fr = Returns (st, fr') -> st = Status fr.
Proof.
  unfold finish, bind. destruct flow.
  - unfold store_Verified. destruct (Verified fr); [ | discriminate ].
    rewrite EXIT_frame. intros [= <- _]. reflexivity.
  - unfold ret. rewrite EXIT_frame. intros [= <- _]. reflexivity.
Qed.

Lemma Verify_status v r :
  VerifyFmpPayloadDependencies R Header v = Returns r ->
  ReturnStatus r = EFI_SUCCESS
  \/ ReturnStatus r = EFI_INVALID_PARAMETER
  \/ exists g i code clears,
       R g i = NotFound code clears /\ ReturnStatus r = ENCODE_ERROR code.
Proof.
  unfold VerifyFmpPayloadDependencies.
  destruct (is_NULL Header); [ intros [= <-]; auto | ].
  fold (frame0 v).
  destruct (evaluate R Header (frame0 v)) as [[st fr] | f] eqn:E; [ | discriminate ].
  intros [= <-]. cbn [ReturnStatus].
  unfold evaluate in E. unfold bind at 1 in E. unfold lift at 1 in E.
  destruct (load Header offsetof_Signature 4) as [sig | f] eqn:Hsig; [ | discriminate ].
  destruct (Z.eqb_spec sig FMP_PAYLOAD_HEADER_SIGNATURE) as [-> | Hne]; cbn [negb] in E;
    [ | unfold ret in E; injection E as <- _; auto ].
  unfold bind at 1 in E. unfold lift at 1 in E.
  destruct (load Header offsetof_HeaderSize 4) as [hs | f] eqn:Hhs; [ | discriminate ].
  assert (E' : evaluate R Header (frame0 v) = Returns (st, fr)).
  { unfold evaluate. unfold bind at 1. unfold lift at 1. rewrite Hsig.
    rewrite Z.eqb_refl. cbn [negb]. unfold bind at 1. unfold lift at 1.
    rewrite Hhs. exact E. }
  clear E. rewrite (evaluate_valid_signature R Header hs _ Hsig Hhs) in E'.
  unfold bind at 1 in E'.
  destruct (hs - 16 >? 0).
  - destruct (negb ((hs - 16) mod 24 =? 0)).
    + destruct ((store_Verified false;;; set_Status EFI_INVALID_PARAMETER;;; ret GotoEXIT)
                  (frame0 v)) as [[flow fr1] | f] eqn:Hj; [ | discriminate ].
      apply jump_status in Hj. apply finish_status in E'. right. left. congruence.
    + destruct (walk R Header (Z.to_nat ((hs - 16) / 24)) sizeof_FMP_PAYLOAD_HEADER
                  (frame0 v)) as [[flow fr1] | f] eqn:Hw; [ | discriminate ].
      apply walk_status in Hw. apply finish_status in E'. subst st.
      cbn [frame0 Status] in Hw. destruct Hw as [Hw | [Hw | Hw]]; auto.
  - unfold ret at 1 in E'. apply finish_status in E'. left. exact E'.
Qed.

End Statuses.

(** X16. On a well-formed payload in which no entry fails and the last
    entry's component is found, the call returns EFI_SUCCESS with TRUE
    stored; it has called the resolver once per entry, in payload order,
    and then FreePool once, on the descriptor of the last entry. *)
Theorem X16_all_satisfied_last_entry_resolved
  (R : Resolver) (Header : Pointer) (pre : list FW_DEPENDENCY) (e : FW_DEPENDENCY)
  (d : EFI_FIRMWARE_IMAGE_DESCRIPTOR) (old : bool) :
  well_formed Header (pre ++ [e]) ->
  (forall x, In x (pre ++ [e]) -> dep_fails R x = false) ->
  resolve R e = Found d ->
  VerifyFmpPayloadDependencies R Header (Some old)
  = Returns (mkResult EFI_SUCCESS (Some true)
               (map call_of (pre ++ [e]) ++ [CallFreePool d])).
Proof.
  intros Hwf Hok Hres.
  exact (Verify_last_entry_resolved R Header pre e d old Hwf Hok Hres).
Qed.

Lemma X16_all_satisfied_last_entry_resolved_witness :
  VerifyFmpPayloadDependencies Examples.registry
    (Examples.payload 64
       [Examples.dep Examples.guid_absent 1 0; Examples.dep Examples.guid_B 7 2] [])
    (Some false)
  = Returns (mkResult EFI_SUCCESS (Some true)
               (map call_of ([Examples.dep Examples.guid_absent 1 0]
                             ++ [Examples.dep Examples.guid_B 7 2])
                ++ [CallFreePool (mkDescriptor 7)])).
Proof.
  apply (X16_all_satisfied_last_entry_resolved Examples.registry
           (Examples.payload 64
              [Examples.dep Examples.guid_absent 1 0; Examples.dep Examples.guid_B 7 2] [])
           [Examples.dep Examples.guid_absent 1 0] (Examples.dep Examples.guid_B 7 2)
           (mkDescriptor 7) false).
  - repeat split; reflexivity.
  - intros x [<- | [<- | []]]; reflexivity.
  - reflexivity.
Defined.

(** X17. Whatever the buffer holds, a call that returns gives one of
    three kinds of status: EFI_SUCCESS, EFI_INVALID_PARAMETER, or the
    error status of a resolver call that failed. *)
Theorem X17_returned_statuses
  (R : Resolver) (Header : Pointer) (VerifiedPtr : OutSlot bool) (r : Result) :
  VerifyFmpPayloadDependencies R Header VerifiedPtr = Returns r ->
  ReturnStatus r = EFI_SUCCESS
  \/ ReturnStatus r = EFI_INVALID_PARAMETER
  \/ exists g i code clears,
       R g i = NotFound code clears /\ ReturnStatus r = ENCODE_ERROR code.
Proof. intros H. exact (Verify_status R Header VerifiedPtr r H). Qed.

Lemma X17_returned_statuses_witness :
  ReturnStatus (mkResult EFI_SUCCESS (Some false)
                  [CallGetFmpAndDescriptor Examples.guid_absent 0])
    = EFI_SUCCESS
  \/ ReturnStatus (mkResult EFI_SUCCESS (Some false)
                     [CallGetFmpAndDescriptor Examples.guid_absent 0])
     = EFI_INVALID_PARAMETER
  \/ exists g i code clears,
       Examples.registry g i = NotFound code clears
       /\ ReturnStatus (mkResult EFI_SUCCESS (Some false)
                          [CallGetFmpAndDescriptor Examples.guid_absent 0])
          = ENCODE_ERROR code.
Proof.
  apply (X17_returned_statuses Examples.registry
           (Examples.payload 40 [Examples.dep Examples.guid_absent 1 1] [])
           (Some true)
           (mkResult EFI_SUCCESS (Some false)
              [CallGetFmpAndDescriptor Examples.guid_absent 0])).
  vm_compute. reflexivity.
Defined.

(** X18. With a non-null header whose signature matches, a call with a
    null Verified never returns a status: every path to a return writes
    through Verified, so the call ends in undefined behaviour. *)
Theorem X18_null_Verified_never_returns
  (R : Resolver) (Header : Pointer) :
  is_NULL Header = false ->
  load Header offsetof_Signature 4 = Returns FMP_PAYLOAD_HEADER_SIGNATURE ->
  exists f, VerifyFmpPayloadDependencies R Header None = Undefined f.
Proof.
  intros Hnn Hsig. exact (Verify_null_Verified_undefined R Header Hnn Hsig).
Qed.

Lemma X18_null_Verified_never_returns_witness :
  exists f,
    VerifyFmpPayloadDependencies Examples.registry
      (Examples.payload 40 [Examples.dep Examples.guid_A 6 0] []) None
    = Undefined f.
Proof.
  apply (X18_null_Verified_never_returns Examples.registry
           (Examples.payload 40 [Examples.dep Examples.guid_A 6 0] [])); reflexivity.
Defined.

Section VerifiedIsAnOutput.

Variable R : Resolver.
Variable Header : Pointer.

(** A walk that falls through has not written to [*Verified]. *)
Lemma walk_FallThrough_Verified n : forall off fr fr',
  walk R Header n off fr = Returns (FallThrough, fr') ->
  Verified fr' = Verified fr.
Proof.
  induction n as [ | n IH]; intros off fr fr' H.
  - cbn [walk] in H. unfold ret in H. injection H as <-. reflexivity.
  - cbn [walk] in H. unfold bind at 1 in H. unfold lift at 1 in H.
    destruct (load Header (off + offsetof_ImageIndex) 1) as [idx | f];
      [ | discriminate ].
    unfold bind at 1 in H. unfold lift at 1 in H.
    destruct (load_bytes Header (off + offsetof_FmpInstance) 16) as [g | f];
      [ | discriminate ].
    unfold bind at 1 in H. unfold call_GetFmpAndDescriptor in H.
    destruct (R g idx) as [d | code clears].
    + unfold bind at 1 in H. unfold get_Status in H; cbn [Status] in H.
      change (EFI_ERROR EFI_SUCCESS) with false in H. cbv iota in H.
      unfold bind at 1 in H. unfold lift at 1 in H.
      destruct (load Header (off + offsetof_RequiredVersionInSystem) 4) as [rv | f];
        [ | discriminate ].
      unfold bind at 1 in H. unfold FmpDesc_Version at 1 in H.
      cbn [FmpDesc Version] in H.
      destruct (rv >? Version d).
      { unfold bind, store_Verified, set_Status, ret in H. cbn [Verified] in H.
        destruct (Verified fr); discriminate. }
      unfold bind at 1 in H. unfold lift at 1 in H.
      destruct (load Header (off + offsetof_Flags) 2) as [fl | f]; [ | discriminate ].
      destruct ((Z.land fl FW_DEPENDENCY_FLAG_MATCH_EXACT_VERSION
                 =? FW_DEPENDENCY_FLAG_MATCH_EXACT_VERSION) && negb (rv =? Version d)).
      { unfold bind, store_Verified, set_Status, ret in H. cbn [Verified] in H.
        destruct (Verified fr); discriminate. }
      unfold bind at 1 in H. unfold set_Status in H.
      cbn [Verified FmpDesc Status trace] in H.
      apply IH in H. exact H.
    + unfold bind at 1 in H. unfold get_Status in H; cbn [Status] in H.
      rewrite EFI_ERROR_ENCODE_ERROR in H.
      unfold bind at 1 in H. unfold lift at 1 in H.
      destruct (load Header (off + offsetof_Flags) 2) as [fl | f]; [ | discriminate ].
      destruct (Z.land fl FW_DEPENDENCY_FLAG_REQUIRED =? FW_DEPENDENCY_FLAG_REQUIRED).
      { unfold bind, store_Verified, set_Status, ret in H. cbn [Verified] in H.
        destruct (Verified fr); discriminate. }
      apply IH in H. exact H.
Qed.

(** One iteration of the loop, with the monad unfolded. *)
Lemma walk_iteration n off fr :
  walk R Header (S n) off fr
  = match load Header (off + offsetof_ImageIndex) 1 with
    | Undefined f => Undefined f
    | Returns idx =>
    match load_bytes Header (off + offsetof_FmpInstance) 16 with
    | Undefined f => Undefined f
    | Returns g =>
    match R g idx with
    | Found d =>
        match load Header (off + offsetof_RequiredVersionInSystem) 4 with
        | Undefined f => Undefined f
        | Returns rv =>
            if rv >? Version d then
              match Verified fr with
              | Some _ =>
                  Returns (GotoEXIT,
                           mkFrame (Some false) (Some d) EFI_SUCCESS
                                   (trace fr ++ [CallGetFmpAndDescriptor g idx]))
              | None => Undefined NullPointerWrite
              end
            else
              match load Header (off + offsetof_Flags) 2 with
              | Undefined f => Undefined f
              | Returns fl =>
                  if (Z.land fl FW_DEPENDENCY_FLAG_MATCH_EXACT_VERSION
                        =? FW_DEPENDENCY_FLAG_MATCH_EXACT_VERSION)
                     && negb (rv =? Version d)
                  then
                    match Verified fr with
                    | Some _ =>
                        Returns (GotoEXIT,
                                 mkFrame (Some false) (Some d) EFI_SUCCESS
                                         (trace fr ++ [CallGetFmpAndDescriptor g idx]))
                    | None => Undefined NullPointerWrite
                    end
                  else
                    walk R Header n (off + sizeof_FW_DEPENDENCY)
                         (mkFrame (Verified fr) (Some d) EFI_SUCCESS
                                  (trace fr ++ [CallGetFmpAndDescriptor g idx]))
              end
        end
    | NotFound code clears =>
        match load Header (off + offsetof_Flags) 2 with
        | Undefined f => Undefined f
        | Returns fl =>
            if Z.land fl FW_DEPENDENCY_FLAG_REQUIRED =? FW_DEPENDENCY_FLAG_REQUIRED
            then
              match Verified fr with
              | Some _ =>
                  Returns (GotoEXIT,
                           mkFrame (Some false) (if clears then None else FmpDesc fr)
                                   EFI_SUCCESS
                                   (trace fr ++ [CallGetFmpAndDescriptor g idx]))
              | None => Undefined NullPointerWrite
              end
            else
              walk R Header n (off + sizeof_FW_DEPENDENCY)
                   (mkFrame (Verified fr) (if clears then None else FmpDesc fr)
                            (ENCODE_ERROR code)
                            (trace fr ++ [CallGetFmpAndDescriptor g idx]))
        end
    end end end.
Proof.
  cbn [walk]. unfold bind at 1. unfold lift at 1.
  destruct (load Header (off + offsetof_ImageIndex) 1) as [idx | f]; [ | reflexivity ].
  unfold bind at 1. unfold lift at 1.
  destruct (load_bytes Header (off + offsetof_FmpInstance) 16) as [g | f];
    [ | reflexivity ].
  unfold bind at 1. unfold call_GetFmpAndDescriptor.
  destruct (R g idx) as [d | code clears].
  - unfold bind at 1. unfold get_Status; cbn [Status].
    change (EFI_ERROR EFI_SUCCESS) with false. cbv iota.
    unfold bind at 1. unfold lift at 1.
    destruct (load Header (off + offsetof_RequiredVersionInSystem) 4) as [rv | f];
      [ | reflexivity ].
    unfold bind at 1. unfold FmpDesc_Version at 1; cbn [FmpDesc Version].
    destruct (rv >? Version d).
    { unfold bind, store_Verified, set_Status, ret. cbn [Verified FmpDesc Status trace].
      destruct (Verified fr); reflexivity. }
    unfold bind at 1. unfold lift at 1.
    destruct (load Header (off + offsetof_Flags) 2) as [fl | f]; [ | reflexivity ].
    destruct ((Z.land fl FW_DEPENDENCY_FLAG_MATCH_EXACT_VERSION
               =? FW_DEPENDENCY_FLAG_MATCH_EXACT_VERSION) && negb (rv =? Version d)).
    { unfold bind, store_Verified, set_Status, ret. cbn [Verified FmpDesc Status trace].
      destruct (Verified fr); reflexivity. }
    unfold bind at 1. unfold set_Status. cbn [Verified FmpDesc Status trace].
    reflexivity.
  - unfold bind at 1. unfold get_Status; cbn [Status].
    rewrite EFI_ERROR_ENCODE_ERROR.
    unfold bind at 1. unfold lift at 1.
    destruct (load Header (off + offsetof_Flags) 2) as [fl | f]; [ | reflexivity ].
    destruct (Z.land fl FW_DEPENDENCY_FLAG_REQUIRED =? FW_DEPENDENCY_FLAG_REQUIRED).
    { unfold bind, store_Verified, set_Status, ret. cbn [Verified FmpDesc Status trace].
      destruct (Verified fr); reflexivity. }
    reflexivity.
Qed.

(** The content of [*Verified] at entry does not steer the walk. *)
Lemma walk_with_Verified n : forall off fr b b',
  Verified fr = Some b ->
  walk R Header n off (with_Verified (Some b') fr)
  = match walk R Header n off fr with
    | Returns (FallThrough, fr') => Returns (FallThrough, with_Verified (Some b') fr')
    | Returns (GotoEXIT, fr') => Returns (GotoEXIT, fr')
    | Undefined f => Undefined f
    end.
Proof.
  induction n as [ | n IH]; intros off fr b b' Hv.
  - reflexivity.
  - rewrite !walk_iteration. cbn [with_Verified Verified FmpDesc Status trace].
    destruct (load Header (off + offsetof_ImageIndex) 1) as [idx | f]; [ | reflexivity ].
    destruct (load_bytes Header (off + offsetof_FmpInstance) 16) as [g | f];
      [ | reflexivity ].
    destruct (R g idx) as [d | code clears].
    + destruct (load Header (off + offsetof_RequiredVersionInSystem) 4) as [rv | f];
        [ | reflexivity ].
      destruct (rv >? Version d); [ rewrite Hv; reflexivity | ].
      destruct (load Header (off + offsetof_Flags) 2) as [fl | f]; [ | reflexivity ].
      destruct ((Z.land fl FW_DEPENDENCY_FLAG_MATCH_EXACT_VERSION
                 =? FW_DEPENDENCY_FLAG_MATCH_EXACT_VERSION) && negb (rv =? Version d));
        [ rewrite Hv; reflexivity | ].
      exact (IH _ (mkFrame (Verified fr) (Some d) EFI_SUCCESS
                     (trace fr ++ [CallGetFmpAndDescriptor g idx])) b b' Hv).
    + destruct (load Header (off + offsetof_Flags) 2) as [fl | f]; [ | reflexivity ].
      destruct (Z.land fl FW_DEPENDENCY_FLAG_REQUIRED =? FW_DEPENDENCY_FLAG_REQUIRED);
        [ rewrite Hv; reflexivity | ].
      exact (IH _ (mkFrame (Verified fr) (if clears then None else FmpDesc fr)
                     (ENCODE_ERROR code)
                     (trace fr ++ [CallGetFmpAndDescriptor g idx])) b b' Hv).
Qed.

Lemma finish_with_Verified flow fr b b' :
  Verified fr = Some b ->
  finish flow (match flow with
               | FallThrough => with_Verified (Some b') fr
               | GotoEXIT => fr
               end)
  = finish flow fr.
Proof.
  intros Hv. destruct flow; [ | reflexivity ].
  unfold finish, bind, store_Verified. cbn [with_Verified Verified].
  rewrite Hv. reflexivity.
Qed.

Lemma bind_run {A B : Type} (m : Exec A) (k : A -> Exec B) (fr : Frame) :
  bind m k fr
  = match m fr with
    | Returns (a, fr') => k a fr'
    | Undefined f => Undefined f
    end.
Proof. reflexivity. Qed.

Hypothesis Header_not_NULL : is_NULL Header = false.
Hypothesis Signature_valid :
  load Header offsetof_Signature 4 = Returns FMP_PAYLOAD_HEADER_SIGNATURE.

Lemma Verify_ignores_old_Verified old old' :
  VerifyFmpPayloadDependencies R Header (Some old')
  = VerifyFmpPayloadDependencies R Header (Some old).
Proof.
  unfold VerifyFmpPayloadDependencies. rewrite Header_not_NULL.
  fold (frame0 (Some old)). fold (frame0 (Some old')).
  destruct (load Header offsetof_HeaderSize 4) as [hs | f] eqn:Hhs.
  - rewrite !(evaluate_valid_signature R Header hs _ Signature_valid Hhs).
    rewrite !bind_run.
    destruct (hs - 16 >? 0); [ | reflexivity ].
    destruct (negb ((hs - 16) mod 24 =? 0)); [ reflexivity | ].
    change (frame0 (Some old')) with (with_Verified (Some old') (frame0 (Some old))).
    rewrite (walk_with_Verified _ _ (frame0 (Some old)) old old' eq_refl).
    destruct (walk R Header (Z.to_nat ((hs - 16) / 24)) sizeof_FMP_PAYLOAD_HEADER
                (frame0 (Some old))) as [[flow fr1] | f] eqn:Hw; [ | reflexivity ].
    destruct flow; [ | reflexivity ].
    apply walk_FallThrough_Verified in Hw. cbn [frame0 Verified] in Hw.
    rewrite (finish_with_Verified FallThrough fr1 old old' Hw). reflexivity.
  - unfold evaluate, bind, lift. rewrite Signature_valid, Z.eqb_refl. cbn [negb].
    rewrite Hhs. reflexivity.
Qed.

End VerifiedIsAnOutput.

(** X19. Verified is an output only: with a non-null header whose
    signature matches, the outcome of a call (status, stored verdict,
    calls, or undefined behaviour) is the same whatever Verified held at
    entry. *)
Theorem X19_Verified_content_at_entry_is_ignored
  (R : Resolver) (Header : Pointer) (old old' : bool) :
  is_NULL Header = false ->
  load Header offsetof_Signature 4 = Returns FMP_PAYLOAD_HEADER_SIGNATURE ->
  VerifyFmpPayloadDependencies R Header (Some old')
  = VerifyFmpPayloadDependencies R Header (Some old).
Proof.
  intros Hnn Hsig. exact (Verify_ignores_old_Verified R Header Hnn Hsig old old').
Qed.

Lemma X19_Verified_content_at_entry_is_ignored_witness :
  VerifyFmpPayloadDependencies Examples.registry
    (Examples.payload 64
       [Examples.dep Examples.guid_A 5 0; Examples.dep Examples.guid_B 8 0] [])
    (Some true)
  = VerifyFmpPayloadDependencies Examples.registry
      (Examples.payload 64
         [Examples.dep Examples.guid_A 5 0; Examples.dep Examples.guid_B 8 0] [])
      (Some false).
Proof.
  apply (X19_Verified_content_at_entry_is_ignored Examples.registry
           (Examples.payload 64
              [Examples.dep Examples.guid_A 5 0; Examples.dep Examples.guid_B 8 0] [])
           false true); reflexivity.
Defined.
